(** * bt-kitchen-svc: the ticket server and its stores

    A shallow embedding of [server.go] (the request handler), of the store
    the binary is built with ([InMemoryKitchenStore], next to [main]) and of
    the store and the request builders of the tests ([StubKitchenStore],
    [newGetTicketRequest], ...), with the parts of the Go standard library
    the handler calls ([strings.TrimPrefix], [strconv.Atoi], [encoding/json],
    the response writer of [net/http]) modelled next to them.

    Conventions.
    - Go's [int] is a 64-bit integer carried as [Z]; the places where the
      code or the library checks the range ([strconv.Atoi], the JSON decoder)
      check it here too.
    - A Go [string] is a sequence of bytes: [string] of the standard library.
    - A Go slice that may be [nil] is an [option (list _)]: [None] is [nil],
      [Some []] is the empty, non-nil slice.
    - A pointer receiver that is mutated is a state that is passed and
      returned.
    - A Go [(value, error)] result is a [result]. *)

From Stdlib Require Import ZArith NArith List String Ascii Bool Lia FinFun.
Import ListNotations.

Set Warnings "-register-all".

Open Scope string_scope.
Open Scope Z_scope.

(** ** Errors and results *)

Inductive error : Type :=
  | ErrSyntax                                       (* strconv.ErrSyntax *)
  | ErrRange                                        (* strconv.ErrRange *)
  | ErrMalformedJSON                                (* json.SyntaxError, io.EOF *)
  | UnmarshalTypeError (value : string) (field : string)
  | ErrUnknownField (key : string)                  (* "json: unknown field %q" *)
  | Errorf (format : string)                        (* fmt.Errorf, no verb *)
  | ErrorfV (format : string) (cause : error)       (* fmt.Errorf with %v *)
  | ErrorfD (format : string) (arg : Z).            (* fmt.Errorf with %d *)

Inductive result (A : Type) : Type :=
  | Ok (a : A)
  | Err (e : error).

Arguments Ok {A} a.
Arguments Err {A} e.

Definition isOk {A : Type} (r : result A) : bool :=
  match r with Ok _ => true | Err _ => false end.

(** ** Go's [int] *)

Definition MinInt : Z := - 2 ^ 63.
Definition MaxInt : Z := 2 ^ 63 - 1.

Definition inInt (z : Z) : bool := (MinInt <=? z) && (z <=? MaxInt).

(** ** unicode/utf8 *)

Module utf8.

Definition code (c : ascii) : N := N_of_ascii c.

Definition between (lo hi : N) (c : ascii) : bool :=
  ((lo <=? code c) && (code c <=? hi))%N.

(** A continuation byte, 10xxxxxx. *)
Definition cont (c : ascii) : bool := between 128 191 c.

(** The well-formed two, three and four byte sequences (the [first] and
    [acceptRanges] tables of the package): no overlong form, no surrogate,
    nothing above U+10FFFF. *)
Definition accept2 (b0 b1 : ascii) : bool :=
  between 194 223 b0 && cont b1.

Definition accept3 (b0 b1 b2 : ascii) : bool :=
  ((between 224 224 b0 && between 160 191 b1)
   || ((between 225 236 b0 || between 238 239 b0) && cont b1)
   || (between 237 237 b0 && between 128 159 b1))
  && cont b2.

Definition accept4 (b0 b1 b2 b3 : ascii) : bool :=
  ((between 240 240 b0 && between 144 191 b1)
   || (between 241 243 b0 && cont b1)
   || (between 244 244 b0 && between 128 143 b1))
  && cont b2 && cont b3.

(** U+FFFD, the replacement character, in UTF-8: EF BF BD. *)
Definition RuneError : string :=
  String (ascii_of_N 239) (String (ascii_of_N 191) (String (ascii_of_N 189) "")).

(** [utf8.ValidString]. *)
Fixpoint ValidString (s : string) : bool :=
  match s with
  | "" => true
  | String b0 r =>
    if (code b0 <? 128)%N then ValidString r else
    match r with
    | String b1 r1 =>
      if accept2 b0 b1 then ValidString r1 else
      match r1 with
      | String b2 r2 =>
        if accept3 b0 b1 b2 then ValidString r2 else
        match r2 with
        | String b3 r3 => if accept4 b0 b1 b2 b3 then ValidString r3 else false
        | "" => false
        end
      | "" => false
      end
    | "" => false
    end
  end.

(** The coercion to valid UTF-8 that [encoding/json] applies to every string
    it writes and to every string literal it reads: a well-formed sequence is
    copied, any other byte is replaced by U+FFFD and the scan resumes at the
    next byte ([utf8.DecodeRuneInString] answers [(RuneError, 1)] there). *)
Fixpoint ToValid (s : string) : string :=
  match s with
  | "" => ""
  | String b0 r =>
    if (code b0 <? 128)%N then String b0 (ToValid r) else
    match r with
    | String b1 r1 =>
      if accept2 b0 b1 then String b0 (String b1 (ToValid r1)) else
      match r1 with
      | String b2 r2 =>
        if accept3 b0 b1 b2
        then String b0 (String b1 (String b2 (ToValid r2))) else
        match r2 with
        | String b3 r3 =>
          if accept4 b0 b1 b2 b3
          then String b0 (String b1 (String b2 (String b3 (ToValid r3))))
          else RuneError ++ ToValid r
        | "" => RuneError ++ ToValid r
        end
      | "" => RuneError ++ ToValid r
      end
    | "" => RuneError ++ ToValid r
    end
  end.

End utf8.

(** ** strings *)

Module strings.

Fixpoint CutPrefix (s prefix : string) {struct prefix} : option string :=
  match prefix with
  | "" => Some s
  | String p prefix' =>
    match s with
    | String c s' => if Ascii.eqb c p then CutPrefix s' prefix' else None
    | "" => None
    end
  end.

(** [strings.TrimPrefix]: [s] without the leading [prefix], or [s] itself
    when it does not start with [prefix]. *)
Definition TrimPrefix (s prefix : string) : string :=
  match CutPrefix s prefix with
  | Some rest => rest
  | None => s
  end.

End strings.

(** ** strconv *)

Module strconv.

Definition digit (c : ascii) : option Z :=
  let n := Z.of_N (N_of_ascii c) in
  if (48 <=? n) && (n <=? 57) then Some (n - 48) else None.

Fixpoint parseDigits (acc : Z) (s : string) : option Z :=
  match s with
  | "" => Some acc
  | String c r =>
    match digit c with
    | Some d => parseDigits (acc * 10 + d) r
    | None => None
    end
  end.

(** [strconv.Atoi] for a 64-bit [int]: an optional sign, then one or more
    decimal digits and nothing else (base 10 admits no underscore); a value
    outside the range of [int] is [ErrRange]. *)
Definition Atoi (s : string) : result Z :=
  let '(neg, body) :=
    match s with
    | String "-"%char r => (true, r)
    | String "+"%char r => (false, r)
    | _ => (false, s)
    end in
  match body with
  | "" => Err ErrSyntax
  | _ =>
    match parseDigits 0 body with
    | None => Err ErrSyntax
    | Some n =>
      let v := if neg then - n else n in
      if inInt v then Ok v else Err ErrRange
    end
  end.

Definition digitChar (d : Z) : ascii := ascii_of_N (Z.to_N (48 + d)).

(** The decimal digits of [n >= 0] in front of [acc], most significant
    first; [fuel] bounds the number of digits. *)
Fixpoint digits (fuel : nat) (n : Z) (acc : string) : string :=
  match fuel with
  | O => acc
  | S fuel' =>
    let acc' := String (digitChar (n mod 10)) acc in
    if n <? 10 then acc' else digits fuel' (n / 10) acc'
  end.

(** [strconv.Itoa], which is what [fmt.Sprintf("%d", n)] prints. *)
Definition Itoa (n : Z) : string :=
  if n <? 0
  then String "-"%char (digits (S (Z.to_nat (Z.log2 (- n)))) (- n) "")
  else digits (S (Z.to_nat (Z.log2 n))) n "".

End strconv.

(** ** encoding/json

    A JSON document is carried as its syntax tree.  A number keeps what the
    decoder needs of its literal: an integer literal (no fraction, no
    exponent) has a value, any other literal never fits a Go [int].  A string
    or a key is the content of its literal, escapes resolved; the decoder
    coerces it to valid UTF-8 when it reads it.  An object keeps its members
    in the order of the text, duplicates included, since the decoder handles
    them one after the other. *)

Module json.

Inductive Number : Type :=
  | IntLit (z : Z)
  | RealLit (text : string).

Inductive Value : Type :=
  | Null
  | Bool (b : bool)
  | Num (n : Number)
  | Str (s : string)
  | Arr (elems : list Value)
  | Obj (members : list (string * Value)).

(** The word [UnmarshalTypeError] uses for the JSON value it met. *)
Definition kind (v : Value) : string :=
  match v with
  | Null => "null"
  | Bool _ => "bool"
  | Num _ => "number"
  | Str _ => "string"
  | Arr _ => "array"
  | Obj _ => "object"
  end.

(** Field names are matched as [bytes.EqualFold] does (simple Unicode case
    folding), through a folded key.  The fold sets that contain an ASCII
    letter are [{a, A}] ... [{z, Z}], plus U+017F (long s, C5 BF) with
    [{s, S}] and U+212A (Kelvin sign, E2 84 AA) with [{k, K}]; [foldName]
    maps each of them to its capital.  Runes of the other fold sets are left
    as they are: every field name of this program is ASCII, so the comparison
    with a field name is not affected. *)
Fixpoint foldName (s : string) : string :=
  match s with
  | "" => ""
  | String c r =>
    let n := N_of_ascii c in
    if ((97 <=? n) && (n <=? 122))%N
    then String (ascii_of_N (n - 32)) (foldName r)
    else
      match r with
      | String c1 r1 =>
        if ((n =? 197) && (N_of_ascii c1 =? 191))%N
        then String "S"%char (foldName r1)
        else
          match r1 with
          | String c2 r2 =>
            if ((n =? 226) && (N_of_ascii c1 =? 132) && (N_of_ascii c2 =? 170))%N
            then String "K"%char (foldName r2)
            else String c (foldName r)
          | "" => String c (foldName r)
          end
      | "" => String c (foldName r)
      end
  end.

(** The first error met is the one reported ([decodeState.saveError]). *)
Definition saveError (saved : option error) (e : error) : option error :=
  match saved with
  | Some _ => saved
  | None => Some e
  end.

Definition orElse (saved later : option error) : option error :=
  match saved with
  | Some _ => saved
  | None => later
  end.

(** Storing a JSON value into a Go [int]: [null] leaves it as it is, an
    integer literal within the range is stored, everything else is an
    [UnmarshalTypeError] and leaves it as it is. *)
Definition storeInt (field : string) (v : Value) (cur : Z) : Z * option error :=
  match v with
  | Null => (cur, None)
  | Num (IntLit z) =>
    if inInt z then (z, None)
    else (cur, Some (UnmarshalTypeError "number" field))
  | _ => (cur, Some (UnmarshalTypeError (kind v) field))
  end.

(** Storing a JSON value into a Go [string]: [null] leaves it as it is, a
    string literal is stored coerced to valid UTF-8. *)
Definition storeString (field : string) (v : Value) (cur : string)
  : string * option error :=
  match v with
  | Null => (cur, None)
  | Str s => (utf8.ToValid s, None)
  | _ => (cur, Some (UnmarshalTypeError (kind v) field))
  end.

(** The elements of a JSON array stored into a [[]string]: element [i] is
    stored into slot [i], which holds what the slice held there when it was
    that long (a second member of the same name decodes over the first) and
    the empty string otherwise.  The content of a slot matters for a [null]
    element only; what Go finds in the spare capacity of a slice that an
    earlier member cut shorter is not modelled, and no statement below
    depends on it. *)
Fixpoint storeElems (field : string) (vs : list Value) (cur : list string)
  : list string * option error :=
  match vs with
  | [] => ([], None)
  | v :: vs' =>
    let '(s, e) := storeString field v (hd "" cur) in
    let '(rest, e') := storeElems field vs' (tl cur) in
    (s :: rest, orElse e e')
  end.

(** Storing a JSON value into a [[]string]: [null] sets the slice to [nil],
    an array sets it to its elements (to the empty, non-nil slice when it has
    none), everything else is an [UnmarshalTypeError]. *)
Definition storeStrings (field : string) (v : Value) (cur : option (list string))
  : option (list string) * option error :=
  match v with
  | Null => (None, None)
  | Arr vs =>
    let '(l, e) :=
      storeElems field vs (match cur with Some l => l | None => [] end) in
    (Some l, e)
  | _ => (cur, Some (UnmarshalTypeError (kind v) field))
  end.

End json.

(** ** net/http and net/http/httptest *)

Module http.

Definition MethodGet : string := "GET".
Definition MethodPost : string := "POST".

Definition StatusOK : Z := 200.
Definition StatusAccepted : Z := 202.
Definition StatusBadRequest : Z := 400.
Definition StatusNotFound : Z := 404.

(** What the handler reads of a request.  [Body] is the JSON value the
    decoder finds at the start of the body, [None] when there is none (the
    body is empty, or does not start with a well-formed JSON value). *)
Record Request : Type := {
  Method : string;
  Path : string;                  (* r.URL.Path *)
  Body : option json.Value
}.

End http.

Module httptest.

(** The response as a recorder sees it: the status code ([200] until a header
    is written), whether a header was written, and the JSON documents written
    to the body, in order. *)
Record ResponseRecorder : Type := {
  Code : Z;
  wroteHeader : bool;
  Body : list json.Value
}.

Definition NewRecorder : ResponseRecorder :=
  {| Code := 200; wroteHeader := false; Body := [] |}.

(** [WriteHeader]: the first call sets the status, later ones are ignored. *)
Definition WriteHeader (w : ResponseRecorder) (code : Z) : ResponseRecorder :=
  if wroteHeader w then w
  else {| Code := code; wroteHeader := true; Body := Body w |}.

(** [Write]: an implicit [WriteHeader(200)] if none was written, then the
    data is appended to the body. *)
Definition Write (w : ResponseRecorder) (doc : json.Value) : ResponseRecorder :=
  let w' := WriteHeader w http.StatusOK in
  {| Code := Code w'; wroteHeader := wroteHeader w'; Body := Body w' ++ [doc] |}.

End httptest.

Import httptest.

(** ** server.go: the data *)

Definition STATUS_PENDING : Z := 0.
Definition STATUS_ACCEPTED : Z := 1.
Definition STATUS_COMPLETED : Z := 2.

Record Ticket : Type := {
  ID : Z;
  Status : Z;
  Items : option (list string)
}.

(** [Ticket{}]. *)
Definition zeroTicket : Ticket := {| ID := 0; Status := 0; Items := None |}.

(** The field of the source is [ID]; it is [ResponseID] here since a record
    field is a global name. *)
Record CreateTicketResponse : Type := {
  ResponseID : Z
}.

(** [json.NewEncoder(w).Encode(v)] for the two structs that are encoded:
    the exported fields in the order of declaration, under their Go names;
    a [nil] slice is [null]; every string is coerced to valid UTF-8. *)
Definition marshalTicket (t : Ticket) : json.Value :=
  json.Obj
    [ ("ID", json.Num (json.IntLit (ID t)));
      ("Status", json.Num (json.IntLit (Status t)));
      ("Items", match Items t with
                | None => json.Null
                | Some l => json.Arr (map (fun s => json.Str (utf8.ToValid s)) l)
                end) ].

Definition marshalCreateTicketResponse (r : CreateTicketResponse) : json.Value :=
  json.Obj [ ("ID", json.Num (json.IntLit (ResponseID r))) ].

(** Decoding into a [Ticket]. *)

Inductive TicketField : Type := FieldID | FieldStatus | FieldItems.

Definition ticketField (key : string) : option TicketField :=
  let k := json.foldName (utf8.ToValid key) in
  if String.eqb k (json.foldName "ID") then Some FieldID
  else if String.eqb k (json.foldName "Status") then Some FieldStatus
  else if String.eqb k (json.foldName "Items") then Some FieldItems
  else None.

(** One member of the object: stored into the field its key names; a key
    that names no field is skipped, and is an error when the decoder
    disallows unknown fields.  Decoding goes on after an error. *)
Definition decodeMember (disallowUnknownFields : bool)
    (st : Ticket * option error) (m : string * json.Value)
  : Ticket * option error :=
  let '(t, saved) := st in
  let '(key, v) := m in
  match ticketField key with
  | Some FieldID =>
    let '(n, e) := json.storeInt "Ticket.ID" v (ID t) in
    ({| ID := n; Status := Status t; Items := Items t |}, json.orElse saved e)
  | Some FieldStatus =>
    let '(n, e) := json.storeInt "Ticket.Status" v (Status t) in
    ({| ID := ID t; Status := n; Items := Items t |}, json.orElse saved e)
  | Some FieldItems =>
    let '(l, e) := json.storeStrings "Ticket.Items" v (Items t) in
    ({| ID := ID t; Status := Status t; Items := l |}, json.orElse saved e)
  | None =>
    if disallowUnknownFields
    then (t, json.saveError saved (ErrUnknownField key))
    else (t, saved)
  end.

(** A JSON value stored into a [Ticket]: the members of an object one after
    the other, [null] changes nothing, any other value is an
    [UnmarshalTypeError]. *)
Definition unmarshalTicket (disallowUnknownFields : bool)
    (v : json.Value) (t : Ticket) : Ticket * option error :=
  match v with
  | json.Obj members =>
    fold_left (decodeMember disallowUnknownFields) members (t, None)
  | json.Null => (t, None)
  | _ => (t, Some (UnmarshalTypeError (json.kind v) "Ticket"))
  end.

Record Decoder : Type := {
  input : option json.Value;
  disallowUnknownFields : bool
}.

Definition NewDecoder (body : option json.Value) : Decoder :=
  {| input := body; disallowUnknownFields := false |}.

Definition DisallowUnknownFields (d : Decoder) : Decoder :=
  {| input := input d; disallowUnknownFields := true |}.

(** [d.Decode(&ticket)]: the ticket after the call and the error. *)
Definition Decode (d : Decoder) (ticket : Ticket) : Ticket * option error :=
  match input d with
  | None => (ticket, Some ErrMalformedJSON)
  | Some v => unmarshalTicket (disallowUnknownFields d) v ticket
  end.

(** ** server.go: the handler *)

Definition isTicketValid (ticket : Ticket) : bool :=
  match Items ticket with
  | None => false
  | Some _ => true
  end.

Definition getTicketFromRequestBody (body : option json.Value) : result Ticket :=
  let d := NewDecoder body in
  let d := DisallowUnknownFields d in
  let ticket := zeroTicket in
  let '(ticket, err) := Decode d ticket in
  match err with
  | Some err => Err (ErrorfV "unable to unmarshal ticket JSON, %v" err)
  | None =>
    if negb (isTicketValid ticket)
    then Err (Errorf "some fields of ticket JSON are empty, cannot persist")
    else Ok ticket
  end.

(** The interface the handler depends on.  Both methods have a pointer
    receiver in every implementation, so both may change the store. *)
Class KitchenStore (S : Type) : Type := {
  GetTicketByID : S -> Z -> S * result Ticket;
  StoreTicket : S -> Ticket -> S * result Z
}.

Record KitchenServer (S : Type) : Type := {
  store : S
}.

Arguments store {S} k.

Section Server.

Context {S : Type} `{KitchenStore S}.

Definition getTicket (k : KitchenServer S) (w : ResponseRecorder) (r : http.Request)
  : KitchenServer S * ResponseRecorder :=
  let stringID := strings.TrimPrefix (http.Path r) "/ticket/" in
  match strconv.Atoi stringID with
  | Err _ => (k, WriteHeader w http.StatusBadRequest)
  | Ok ticketID =>
    let '(s, res) := GetTicketByID (store k) ticketID in
    let k := {| store := s |} in
    match res with
    | Err _ => (k, WriteHeader w http.StatusNotFound)
    | Ok ticket =>
      let w := WriteHeader w http.StatusOK in
      (k, Write w (marshalTicket ticket))
    end
  end.

Definition createTicket (k : KitchenServer S) (w : ResponseRecorder) (r : http.Request)
  : KitchenServer S * ResponseRecorder :=
  match getTicketFromRequestBody (http.Body r) with
  | Err _ => (k, WriteHeader w http.StatusBadRequest)
  | Ok ticket =>
    let ticket := {| ID := ID ticket; Status := STATUS_PENDING; Items := Items ticket |} in
    let '(s, res) := StoreTicket (store k) ticket in
    let k := {| store := s |} in
    match res with
    | Err _ => (k, WriteHeader w http.StatusBadRequest)
    | Ok id =>
      let w := WriteHeader w http.StatusAccepted in
      (k, Write w (marshalCreateTicketResponse {| ResponseID := id |}))
    end
  end.

Definition ServeHTTP (k : KitchenServer S) (w : ResponseRecorder) (r : http.Request)
  : KitchenServer S * ResponseRecorder :=
  if String.eqb (http.Method r) http.MethodGet then getTicket k w r
  else if String.eqb (http.Method r) http.MethodPost then createTicket k w r
  else (k, w).

End Server.

(** ** The store of the binary *)

(** [type InMemoryKitchenStore struct{}]. *)
Inductive InMemoryKitchenStore : Type := mkInMemoryKitchenStore.

Definition InMemoryKitchenStore_GetTicketByID
    (i : InMemoryKitchenStore) (ticketId : Z)
  : InMemoryKitchenStore * result Ticket :=
  (i, Ok zeroTicket).

Definition InMemoryKitchenStore_StoreTicket
    (i : InMemoryKitchenStore) (_ : Ticket)
  : InMemoryKitchenStore * result Z :=
  (i, Ok 123).

#[export] Instance InMemoryKitchenStore_KitchenStore
  : KitchenStore InMemoryKitchenStore := {
  GetTicketByID := InMemoryKitchenStore_GetTicketByID;
  StoreTicket := InMemoryKitchenStore_StoreTicket
}.

(** ** The store of the tests and the request builders *)

Record StubKitchenStore : Type := {
  tickets : list Ticket
}.

(** The loop of [GetTicketByID]: the first ticket with the ID. *)
Fixpoint findTicket (ts : list Ticket) (ticketID : Z) : option Ticket :=
  match ts with
  | [] => None
  | ticket :: rest =>
    if ID ticket =? ticketID then Some ticket else findTicket rest ticketID
  end.

Definition StubKitchenStore_GetTicketByID (s : StubKitchenStore) (ticketID : Z)
  : StubKitchenStore * result Ticket :=
  match findTicket (tickets s) ticketID with
  | Some ticket => (s, Ok ticket)
  | None => (s, Err (ErrorfD "no ticket with ID = %d" ticketID))
  end.

Definition StubKitchenStore_StoreTicket (s : StubKitchenStore) (ticket : Ticket)
  : StubKitchenStore * result Z :=
  let ticket :=
    {| ID := Z.of_nat (List.length (tickets s));
       Status := Status ticket;
       Items := Items ticket |} in
  let s := {| tickets := tickets s ++ [ticket] |} in
  (s, Ok (ID ticket)).

#[export] Instance StubKitchenStore_KitchenStore : KitchenStore StubKitchenStore := {
  GetTicketByID := StubKitchenStore_GetTicketByID;
  StoreTicket := StubKitchenStore_StoreTicket
}.

(** [&StubKitchenStore{}]. *)
Definition emptyStub : StubKitchenStore := {| tickets := [] |}.

Definition newGetTicketRequest (ticketID : Z) : http.Request :=
  {| http.Method := http.MethodGet;
     http.Path := "/ticket/" ++ strconv.Itoa ticketID;
     http.Body := None |}.

Definition newCreateTicketRequest (ticket : Ticket) : http.Request :=
  {| http.Method := http.MethodPost;
     http.Path := "/ticket/";
     http.Body := Some (marshalTicket ticket) |}.

(** A POST request with an arbitrary body, as the test of the invalid JSON
    builds one. *)
Definition newPostRequest (path : string) (body : option json.Value) : http.Request :=
  {| http.Method := http.MethodPost; http.Path := path; http.Body := body |}.

(** [getTicketFromResponse]: the first document of the response body decoded
    into a fresh [Ticket], unknown fields allowed. *)
Definition getTicketFromResponse (body : list json.Value) : result Ticket :=
  let '(ticket, err) := Decode (NewDecoder (hd_error body)) zeroTicket in
  match err with
  | Some err => Err err
  | None => Ok ticket
  end.

(** ** A store that records its calls

    [Spy] wraps a store, forwards every call to it and logs the call.  The
    handler run on a [Spy] shows which store operations a request invokes. *)

Inductive Call : Type :=
  | CallGetTicketByID (ticketID : Z)
  | CallStoreTicket (ticket : Ticket).

Record Spy (S : Type) : Type := {
  inner : S;
  calls : list Call
}.

Arguments inner {S} s.
Arguments calls {S} s.

Definition watch {S : Type} (s : S) : Spy S := {| inner := s; calls := [] |}.

#[export] Instance Spy_KitchenStore {S : Type} `{KitchenStore S} : KitchenStore (Spy S) := {
  GetTicketByID s ticketID :=
    let '(s', res) := GetTicketByID (inner s) ticketID in
    ({| inner := s'; calls := calls s ++ [CallGetTicketByID ticketID] |}, res);
  StoreTicket s ticket :=
    let '(s', res) := StoreTicket (inner s) ticket in
    ({| inner := s'; calls := calls s ++ [CallStoreTicket ticket] |}, res)
}.

(** The store after a sequence of store operations, and the results of the
    operations in order. *)
Fixpoint storeAll {S : Type} `{KitchenStore S} (s : S) (ts : list Ticket)
  : S * list (result Z) :=
  match ts with
  | [] => (s, [])
  | t :: ts' =>
    let '(s1, r) := StoreTicket s t in
    let '(s2, rs) := storeAll s1 ts' in
    (s2, r :: rs)
  end.

(** ** The vocabulary of the statements *)

Definition startsWithDigit (s : string) : Prop :=
  match s with
  | String c _ => exists d, strconv.digit c = Some d
  | "" => False
  end.

Definition noError (e : option error) : bool :=
  match e with
  | None => true
  | Some _ => false
  end.

Definition nonNil {A : Type} (l : option (list A)) : bool :=
  match l with
  | None => false
  | Some _ => true
  end.

(** The JSON values that a Go [int], a Go [string] and a [[]string] take
    without an error. *)
Definition intValue (v : json.Value) : bool :=
  match v with
  | json.Null => true
  | json.Num (json.IntLit z) => inInt z
  | _ => false
  end.

Definition stringValue (v : json.Value) : bool :=
  match v with
  | json.Null | json.Str _ => true
  | _ => false
  end.

Definition stringsValue (v : json.Value) : bool :=
  match v with
  | json.Null => true
  | json.Arr vs => forallb stringValue vs
  | _ => false
  end.

Definition isKnown (m : string * json.Value) : bool :=
  match ticketField (fst m) with
  | Some _ => true
  | None => false
  end.

Definition isIDMember (m : string * json.Value) : bool :=
  match ticketField (fst m) with
  | Some FieldID => true
  | _ => false
  end.

Definition isItemsMember (m : string * json.Value) : bool :=
  match ticketField (fst m) with
  | Some FieldItems => true
  | _ => false
  end.

(** A member that names a field of [Ticket] and carries a value of the type
    of that field. *)
Definition memberFits (m : string * json.Value) : bool :=
  match ticketField (fst m) with
  | Some FieldID | Some FieldStatus => intValue (snd m)
  | Some FieldItems => stringsValue (snd m)
  | None => false
  end.

(** The value of the last member that names [Items], after [seen]. *)
Definition lastItemsFrom (seen : option json.Value)
    (members : list (string * json.Value)) : option json.Value :=
  fold_left (fun acc m => if isItemsMember m then Some (snd m) else acc)
            members seen.

Definition lastItems (members : list (string * json.Value)) : option json.Value :=
  lastItemsFrom None members.

(** The [Items] of a body: the value of the last member of the object that
    names [Items]; [None] when there is no such member or no object. *)
Definition bodyItems (body : option json.Value) : option json.Value :=
  match body with
  | Some (json.Obj members) => lastItems members
  | _ => None
  end.

Definition isArray (v : option json.Value) : bool :=
  match v with
  | Some (json.Arr _) => true
  | _ => false
  end.

Definition isNullOrAbsent (v : option json.Value) : bool :=
  match v with
  | None | Some json.Null => true
  | _ => false
  end.

(** The bodies the create handler takes: an object whose members all fit,
    with a last [Items] that is an array. *)
Definition acceptableBody (body : option json.Value) : bool :=
  match body with
  | Some (json.Obj members) =>
    forallb memberFits members && isArray (lastItems members)
  | _ => false
  end.

(** A JSON value with, at any depth, an object member whose key names no
    field of [Ticket]. *)
Fixpoint hasForeignField (v : json.Value) : bool :=
  match v with
  | json.Arr vs => existsb hasForeignField vs
  | json.Obj ms =>
    existsb (fun m => match m with
                      | (key, v') =>
                        match ticketField key with
                        | None => true
                        | Some _ => hasForeignField v'
                        end
                      end) ms
  | _ => false
  end.

(** The members of an object without those that name [ID]. *)
Definition dropID (members : list (string * json.Value))
  : list (string * json.Value) :=
  filter (fun m => negb (isIDMember m)) members.

(** Every member that names [ID] carries what a Go [int] takes. *)
Definition idsFit (members : list (string * json.Value)) : bool :=
  forallb (fun m => negb (isIDMember m) || intValue (snd m)) members.

(** The tickets a Go program can hold and the encoder writes unchanged:
    [ID] and [Status] within the range of [int], every item valid UTF-8. *)
Definition validItems (t : Ticket) : bool :=
  match Items t with
  | None => true
  | Some l => forallb utf8.ValidString l
  end.

Definition inRange (t : Ticket) : bool := inInt (ID t) && inInt (Status t).

(** Two tickets that differ at most in the [ID]. *)
Definition sameButID (a b : Ticket) : Prop :=
  Status a = Status b /\ Items a = Items b.

(** How two results of [getTicketFromRequestBody] agree up to the [ID]. *)
Definition agreeButID (a b : result Ticket) : Prop :=
  match a, b with
  | Ok ta, Ok tb => sameButID ta tb
  | Err ea, Err eb => ea = eb
  | _, _ => False
  end.

(** The IDs of a store are the positions: [0], [1], ... *)
Definition numbered (s : StubKitchenStore) : Prop :=
  map ID (tickets s) = map Z.of_nat (seq 0 (List.length (tickets s))).

(** The server after a sequence of requests, each on a fresh recorder, and
    the responses in order. *)
Fixpoint serveAll {S : Type} `{KitchenStore S}
    (k : KitchenServer S) (rs : list http.Request)
  : KitchenServer S * list ResponseRecorder :=
  match rs with
  | [] => (k, [])
  | r :: rs' =>
    let '(k1, w) := ServeHTTP k NewRecorder r in
    let '(k2, ws) := serveAll k1 rs' in
    (k2, w :: ws)
  end.

(** What the handler keeps true of the store of the tests: the IDs are the
    positions, and every ticket is PENDING with items that are valid
    UTF-8. *)
Definition wellKept (s : StubKitchenStore) : Prop :=
  numbered s
  /\ Forall (fun t => Status t = STATUS_PENDING /\ validItems t = true) (tickets s).

(** The store [TestGETTicket] starts from, and the response of a server on
    a fresh recorder. *)
Definition seeded : StubKitchenStore :=
  {| tickets :=
       [ {| ID := 1; Status := STATUS_ACCEPTED; Items := Some ["burger"; "fries"] |};
         {| ID := 2; Status := STATUS_PENDING; Items := Some ["pizza"; "water"] |} ] |}.

Definition answer (s : StubKitchenStore) (r : http.Request) : ResponseRecorder :=
  snd (ServeHTTP {| store := s |} NewRecorder r).

(** ** More of the tests: the assertions

    A failed assertion is a call of [t.Errorf]; an assertion is modelled by
    the list of the formats of its [t.Errorf] calls, empty when it passes. *)

(** Decoding into a [CreateTicketResponse], whose one field is [ID]. *)
Definition decodeResponseMember (disallowUnknownFields : bool)
    (st : CreateTicketResponse * option error) (m : string * json.Value)
  : CreateTicketResponse * option error :=
  let '(r, saved) := st in
  let '(key, v) := m in
  if String.eqb (json.foldName (utf8.ToValid key)) (json.foldName "ID")
  then
    let '(n, e) := json.storeInt "CreateTicketResponse.ID" v (ResponseID r) in
    ({| ResponseID := n |}, json.orElse saved e)
  else if disallowUnknownFields
  then (r, json.saveError saved (ErrUnknownField key))
  else (r, saved).

Definition unmarshalCreateTicketResponse (disallowUnknownFields : bool)
    (v : json.Value) (r : CreateTicketResponse)
  : CreateTicketResponse * option error :=
  match v with
  | json.Obj members =>
    fold_left (decodeResponseMember disallowUnknownFields) members (r, None)
  | json.Null => (r, None)
  | _ => (r, Some (UnmarshalTypeError (json.kind v) "CreateTicketResponse"))
  end.

(** [d.Decode(&ticketResponse)]. *)
Definition DecodeResponse (d : Decoder) (r : CreateTicketResponse)
  : CreateTicketResponse * option error :=
  match input d with
  | None => (r, Some ErrMalformedJSON)
  | Some v => unmarshalCreateTicketResponse (disallowUnknownFields d) v r
  end.

Definition assertTicketResponse (body : list json.Value) (want : CreateTicketResponse)
  : list string :=
  let ticketResponse := {| ResponseID := 0 |} in
  let '(ticketResponse, err) :=
    DecodeResponse (NewDecoder (hd_error body)) ticketResponse in
  (match err with
   | Some _ => ["unable to parse response from server %q into Ticket, %v"]
   | None => []
   end)
  ++ (if negb (ResponseID ticketResponse =? ResponseID want)
      then ["didn't receive correct Ticket ID, got %v want %v"]
      else []).

(** [reflect.DeepEqual] on two [[]string] and on two [Ticket]s: a nil slice
    and an empty one are not equal. *)
Fixpoint equalStrings (a b : list string) : bool :=
  match a, b with
  | [], [] => true
  | x :: a', y :: b' => String.eqb x y && equalStrings a' b'
  | _, _ => false
  end.

Definition DeepEqual (a b : Ticket) : bool :=
  (ID a =? ID b) && (Status a =? Status b)
  && match Items a, Items b with
     | None, None => true
     | Some x, Some y => equalStrings x y
     | _, _ => false
     end.

(** [GetTicketByID] hands back [Ticket{}] with its error, and the comparison
    is made all the same. *)
Definition assertTicketPersisted (store : StubKitchenStore) (want : Ticket)
  : list string :=
  let '(_, res) := StubKitchenStore_GetTicketByID store (ID want) in
  let '(got, failed) :=
    match res with
    | Ok ticket => (ticket, [])
    | Err _ => (zeroTicket, ["server didn't persist order, %v"])
    end in
  failed
  ++ (if negb (DeepEqual got want)
      then ["server didn't persist correct order, got %v want %v"]
      else []).

(** ** A store that refuses

    Every operation of [RefusingStore] fails: the store that shows what the
    handler does with a failure of [StoreTicket]. *)

Inductive RefusingStore : Type := mkRefusingStore.

#[export] Instance RefusingStore_KitchenStore : KitchenStore RefusingStore := {
  GetTicketByID s _ := (s, Err (Errorf "store is down"));
  StoreTicket s _ := (s, Err (Errorf "store is down"))
}.

(** ** More vocabulary *)

(** A string without its leading sign, if it has one. *)
Definition unsigned (s : string) : string :=
  match s with
  | String "-"%char r => r
  | String "+"%char r => r
  | _ => s
  end.

Definition isDigit (c : ascii) : bool :=
  match strconv.digit c with
  | Some _ => true
  | None => false
  end.

Fixpoint allDigits (s : string) : bool :=
  match s with
  | "" => true
  | String c r => isDigit c && allDigits r
  end.

(** [n] times the character [0]. *)
Fixpoint zeros (n : nat) : string :=
  match n with
  | O => ""
  | S n' => String "0"%char (zeros n')
  end.

(** The calls the handler may make: a fetch of an ID within the range of
    [int], a store of a PENDING ticket that passed validation and whose
    items are valid UTF-8. *)
Definition handlerCall (c : Call) : Prop :=
  match c with
  | CallGetTicketByID ticketID => inInt ticketID = true
  | CallStoreTicket ticket =>
    Status ticket = STATUS_PENDING
    /\ isTicketValid ticket = true
    /\ validItems ticket = true
  end.

Definition isFetch (c : Call) : bool :=
  match c with
  | CallGetTicketByID _ => true
  | CallStoreTicket _ => false
  end.

(** The 202 responses among the responses. *)
Definition accepted (ws : list ResponseRecorder) : list ResponseRecorder :=
  filter (fun w => Code w =? http.StatusAccepted) ws.

(** The document [{"ID": n}]. *)
Definition idDocument (n : Z) : json.Value :=
  marshalCreateTicketResponse {| ResponseID := n |}.

(** The ticket a [Ticket] becomes when it is sent as a body and decoded:
    the same, with every item coerced to valid UTF-8. *)
Definition coerced (t : Ticket) : Ticket :=
  {| ID := ID t;
     Status := Status t;
     Items := match Items t with
              | None => None
              | Some l => Some (map utf8.ToValid l)
              end |}.

(** * Properties of the library functions *)

Section Utf8Facts.

Import utf8.

Lemma ValidString_RuneError (s : string) :
  ValidString (RuneError ++ s) = ValidString s.
Proof. reflexivity. Qed.

Lemma ToValid_fixes_valid_upto (n : nat) :
  forall s, (String.length s <= n)%nat -> ValidString s = true -> ToValid s = s.
Proof.
  induction n as [|n IH]; intros s Hlen Hv.
  - destruct s; [reflexivity | cbn in Hlen; lia].
  - destruct s as [|b0 r]; [reflexivity|].
    cbn [ValidString ToValid] in *. cbn [String.length] in Hlen.
    destruct (code b0 <? 128)%N.
    { f_equal. apply IH; [lia | exact Hv]. }
    destruct r as [|b1 r1]; [discriminate|]. cbn [String.length] in Hlen.
    destruct (accept2 b0 b1).
    { do 2 f_equal. apply IH; [lia | exact Hv]. }
    destruct r1 as [|b2 r2]; [discriminate|]. cbn [String.length] in Hlen.
    destruct (accept3 b0 b1 b2).
    { do 3 f_equal. apply IH; [lia | exact Hv]. }
    destruct r2 as [|b3 r3]; [discriminate|]. cbn [String.length] in Hlen.
    destruct (accept4 b0 b1 b2 b3); [|discriminate].
    do 4 f_equal. apply IH; [lia | exact Hv].
Qed.

(** A valid string is left as it is. *)
Lemma ToValid_fixes_valid (s : string) :
  ValidString s = true -> ToValid s = s.
Proof. apply (ToValid_fixes_valid_upto (String.length s)). lia. Qed.

Lemma ToValid_is_valid_upto (n : nat) :
  forall s, (String.length s <= n)%nat -> ValidString (ToValid s) = true.
Proof.
  induction n as [|n IH]; intros s Hlen.
  - destruct s; [reflexivity | cbn in Hlen; lia].
  - destruct s as [|b0 r]; [reflexivity|].
    cbn [ToValid]. cbn [String.length] in Hlen.
    assert (Hbad : ValidString (RuneError ++ ToValid r) = true).
    { rewrite ValidString_RuneError. apply IH. lia. }
    destruct (code b0 <? 128)%N eqn:E0.
    { cbn [ValidString]. rewrite E0. apply IH. lia. }
    destruct r as [|b1 r1]; [exact Hbad|]. cbn [String.length] in Hlen.
    destruct (accept2 b0 b1) eqn:E2.
    { cbn [ValidString]. rewrite E0, E2. apply IH. lia. }
    destruct r1 as [|b2 r2]; [exact Hbad|]. cbn [String.length] in Hlen.
    destruct (accept3 b0 b1 b2) eqn:E3.
    { cbn [ValidString]. rewrite E0, E2, E3. apply IH. lia. }
    destruct r2 as [|b3 r3]; [exact Hbad|]. cbn [String.length] in Hlen.
    destruct (accept4 b0 b1 b2 b3) eqn:E4; [|exact Hbad].
    cbn [ValidString]. rewrite E0, E2, E3, E4. apply IH. lia.
Qed.

(** What the coercion returns is valid. *)
Lemma ToValid_is_valid (s : string) : ValidString (ToValid s) = true.
Proof. apply (ToValid_is_valid_upto (String.length s)). lia. Qed.

End Utf8Facts.

Section StrconvFacts.

Import strconv.

Lemma digit_digitChar (d : Z) : 0 <= d < 10 -> digit (digitChar d) = Some d.
Proof.
  intros Hd.
  assert (H : d = 0 \/ d = 1 \/ d = 2 \/ d = 3 \/ d = 4
              \/ d = 5 \/ d = 6 \/ d = 7 \/ d = 8 \/ d = 9) by lia.
  repeat (destruct H as [-> | H]; [reflexivity|]). subst d. reflexivity.
Qed.

(** Reading the digits printed for [n] adds [n] behind what was read. *)
Lemma parseDigits_digits (fuel : nat) :
  forall n acc, 0 <= n < 10 ^ Z.of_nat fuel ->
  exists k, 0 <= k /\
    forall a, parseDigits a (digits fuel n acc) = parseDigits (a * 10 ^ k + n) acc.
Proof.
  induction fuel as [|fuel IH]; intros n acc Hn.
  - exists 0. split; [lia|]. intros a. cbn [digits].
    change (10 ^ Z.of_nat 0) with 1 in Hn. f_equal; lia.
  - rewrite Nat2Z.inj_succ, Z.pow_succ_r in Hn by lia.
    cbn [digits]. destruct (n <? 10) eqn:E.
    + apply Z.ltb_lt in E. exists 1. split; [lia|]. intros a.
      cbn [parseDigits]. rewrite Z.mod_small by lia.
      rewrite digit_digitChar by lia. f_equal; lia.
    + apply Z.ltb_ge in E.
      assert (Hq : 0 <= n / 10 < 10 ^ Z.of_nat fuel).
      { split; [apply Z.div_pos; lia | apply Z.div_lt_upper_bound; lia]. }
      destruct (IH (n / 10) (String (digitChar (n mod 10)) acc) Hq)
        as [k [Hk Hparse]].
      exists (Z.succ k). split; [lia|]. intros a.
      rewrite Hparse. cbn [parseDigits].
      rewrite digit_digitChar by (apply Z.mod_pos_bound; lia).
      f_equal. rewrite Z.pow_succ_r by lia.
      pose proof (Z.div_mod n 10 ltac:(lia)). lia.
Qed.

Lemma log2_fuel (n : Z) :
  0 <= n -> n < 10 ^ Z.of_nat (S (Z.to_nat (Z.log2 n))).
Proof.
  intros Hn. pose proof (Z.log2_nonneg n) as Hl.
  rewrite Nat2Z.inj_succ, Z2Nat.id by assumption.
  destruct (Z.eq_dec n 0) as [-> | Hnz].
  - reflexivity.
  - apply Z.lt_le_trans with (2 ^ Z.succ (Z.log2 n)).
    + apply Z.log2_spec. lia.
    + apply Z.pow_le_mono_l. lia.
Qed.

Lemma digits_startsWithDigit (fuel : nat) :
  forall n acc, 0 <= n -> startsWithDigit acc -> startsWithDigit (digits fuel n acc).
Proof.
  induction fuel as [|fuel IH]; intros n acc Hn Hacc; [exact Hacc|].
  cbn [digits].
  assert (H : startsWithDigit (String (digitChar (n mod 10)) acc)).
  { exists (n mod 10). apply digit_digitChar. apply Z.mod_pos_bound. lia. }
  destruct (n <? 10); [exact H|].
  apply IH; [apply Z.div_pos; lia | exact H].
Qed.

Lemma Itoa_digits_startsWithDigit (fuel : nat) (n : Z) :
  0 <= n -> startsWithDigit (digits (S fuel) n "").
Proof.
  intros Hn. cbn [digits].
  assert (H : startsWithDigit (String (digitChar (n mod 10)) "")).
  { exists (n mod 10). apply digit_digitChar. apply Z.mod_pos_bound. lia. }
  destruct (n <? 10); [exact H|].
  apply digits_startsWithDigit; [apply Z.div_pos; lia | exact H].
Qed.

(** A string that starts with a digit has no sign to strip. *)
Lemma Atoi_unsigned (s : string) :
  startsWithDigit s ->
  Atoi s = match parseDigits 0 s with
           | None => Err ErrSyntax
           | Some n => if inInt n then Ok n else Err ErrRange
           end.
Proof.
  destruct s as [|c r]; [intros []|]. intros [d Hd].
  destruct c as [[] [] [] [] [] [] [] []]; try discriminate Hd; reflexivity.
Qed.

(** [Atoi] reads back what [Itoa] prints. *)
Lemma Atoi_Itoa (z : Z) : inInt z = true -> Atoi (Itoa z) = Ok z.
Proof.
  intros Hz. unfold Itoa. destruct (z <? 0) eqn:E.
  - apply Z.ltb_lt in E.
    assert (Hn : 0 <= - z) by lia.
    destruct (parseDigits_digits _ (- z) "" (conj Hn (log2_fuel (- z) Hn)))
      as [k [_ Hparse]].
    pose proof (Itoa_digits_startsWithDigit (Z.to_nat (Z.log2 (- z))) (- z) Hn) as Hs.
    unfold Atoi. destruct (digits _ (- z) "") as [|c r] eqn:Ed; [destruct Hs|].
    rewrite Hparse. cbn [parseDigits]. rewrite Z.mul_0_l, Z.add_0_l, Z.opp_involutive.
    rewrite Hz. reflexivity.
  - apply Z.ltb_ge in E.
    destruct (parseDigits_digits _ z "" (conj E (log2_fuel z E))) as [k [_ Hparse]].
    rewrite Atoi_unsigned by (apply Itoa_digits_startsWithDigit; exact E).
    rewrite Hparse. cbn [parseDigits]. rewrite Z.mul_0_l, Z.add_0_l.
    rewrite Hz. reflexivity.
Qed.

End StrconvFacts.

Lemma TrimPrefix_ticket (s : string) :
  strings.TrimPrefix ("/ticket/" ++ s) "/ticket/" = s.
Proof. reflexivity. Qed.

(** * The decoder *)

Section DecoderFacts.

Import json.

Lemma noError_orElse (e e' : option error) :
  noError (orElse e e') = noError e && noError e'.
Proof. destruct e, e'; reflexivity. Qed.

Lemma noError_saveError (e : option error) (x : error) :
  noError (saveError e x) = false.
Proof. destruct e; reflexivity. Qed.

Lemma storeInt_noError (field : string) (v : Value) (cur : Z) :
  noError (snd (storeInt field v cur)) = intValue v.
Proof.
  destruct v as [| | [z|] | | |]; try reflexivity.
  cbn. destruct (inInt z); reflexivity.
Qed.

Lemma storeString_noError (field : string) (v : Value) (cur : string) :
  noError (snd (storeString field v cur)) = stringValue v.
Proof. destruct v; reflexivity. Qed.

Lemma storeElems_noError (field : string) (vs : list Value) :
  forall cur, noError (snd (storeElems field vs cur)) = forallb stringValue vs.
Proof.
  induction vs as [|v vs IH]; intros cur; [reflexivity|].
  cbn [storeElems forallb].
  pose proof (storeString_noError field v (hd "" cur)) as Hv.
  destruct (storeString field v (hd "" cur)) as [s e].
  specialize (IH (tl cur)).
  destruct (storeElems field vs (tl cur)) as [rest e'].
  cbn [snd] in *. rewrite noError_orElse, Hv, IH. reflexivity.
Qed.

Lemma storeStrings_noError (field : string) (v : Value) (cur : option (list string)) :
  noError (snd (storeStrings field v cur)) = stringsValue v.
Proof.
  destruct v as [| | | | vs |]; try reflexivity.
  cbn [storeStrings stringsValue].
  pose proof (storeElems_noError field vs
                (match cur with Some l => l | None => [] end)) as H.
  destruct (storeElems field vs _) as [l e]. exact H.
Qed.

(** A member decodes without an error exactly when it fits. *)
Lemma decodeMember_noError (t : Ticket) (e : option error) (m : string * Value) :
  noError (snd (decodeMember true (t, e) m)) = noError e && memberFits m.
Proof.
  destruct m as [key v]. unfold decodeMember, memberFits. cbn [fst snd].
  destruct (ticketField key) as [[| |]|].
  - pose proof (storeInt_noError "Ticket.ID" v (ID t)) as Hv.
    destruct (storeInt _ v (ID t)) as [n e']. cbn [snd] in *.
    rewrite noError_orElse, Hv. reflexivity.
  - pose proof (storeInt_noError "Ticket.Status" v (Status t)) as Hv.
    destruct (storeInt _ v (Status t)) as [n e']. cbn [snd] in *.
    rewrite noError_orElse, Hv. reflexivity.
  - pose proof (storeStrings_noError "Ticket.Items" v (Items t)) as Hv.
    destruct (storeStrings _ v (Items t)) as [l e']. cbn [snd] in *.
    rewrite noError_orElse, Hv. reflexivity.
  - cbn [snd]. rewrite noError_saveError, andb_false_r. reflexivity.
Qed.

Lemma decodeMembers_noError (ms : list (string * Value)) :
  forall st,
    noError (snd (fold_left (decodeMember true) ms st))
    = noError (snd st) && forallb memberFits ms.
Proof.
  induction ms as [|m ms IH]; intros [t e].
  - cbn. rewrite andb_true_r. reflexivity.
  - cbn [fold_left forallb]. rewrite IH.
    pose proof (decodeMember_noError t e m) as Hm.
    destruct (decodeMember true (t, e) m) as [t' e']. cbn [snd] in *.
    rewrite Hm, andb_assoc. reflexivity.
Qed.

End DecoderFacts.

Section DecodedTicket.

Import json.

Lemma decodeMember_nonNil (t : Ticket) (e : option error)
    (m : string * Value) (seen : option Value) :
  memberFits m = true ->
  nonNil (Items t) = isArray seen ->
  nonNil (Items (fst (decodeMember true (t, e) m)))
  = isArray (if isItemsMember m then Some (snd m) else seen).
Proof.
  destruct m as [key v].
  unfold decodeMember, memberFits, isItemsMember. cbn [fst snd].
  destruct (ticketField key) as [[| |]|]; intros Hfit Hseen.
  - destruct (storeInt _ v (ID t)). exact Hseen.
  - destruct (storeInt _ v (Status t)). exact Hseen.
  - destruct v as [| | | | vs |]; try discriminate Hfit.
    + reflexivity.
    + cbn [storeStrings]. destruct (storeElems _ vs _). reflexivity.
  - discriminate Hfit.
Qed.

(** After members that all fit, [Items] is non-nil exactly when the last
    member that names it is an array. *)
Lemma decodeMembers_nonNil (ms : list (string * Value)) :
  forall st seen,
    forallb memberFits ms = true ->
    nonNil (Items (fst st)) = isArray seen ->
    nonNil (Items (fst (fold_left (decodeMember true) ms st)))
    = isArray (lastItemsFrom seen ms).
Proof.
  induction ms as [|m ms IH]; intros [t e] seen Hfit Hseen; [exact Hseen|].
  cbn [forallb] in Hfit. apply andb_true_iff in Hfit as [Hm Hms].
  cbn [fold_left lastItemsFrom]. apply IH; [exact Hms|].
  pose proof (decodeMember_nonNil t e m seen Hm Hseen) as H.
  destruct (decodeMember true (t, e) m). exact H.
Qed.

(** The bodies [getTicketFromRequestBody] takes are the acceptable ones. *)
Lemma getTicketFromRequestBody_isOk (body : option Value) :
  isOk (getTicketFromRequestBody body) = acceptableBody body.
Proof.
  unfold getTicketFromRequestBody, Decode, NewDecoder, DisallowUnknownFields.
  cbn [input disallowUnknownFields].
  destruct body as [v|]; [|reflexivity].
  destruct v as [| | | | |ms]; try reflexivity.
  cbn [unmarshalTicket acceptableBody].
  pose proof (decodeMembers_noError ms (zeroTicket, None)) as Herr.
  pose proof (decodeMembers_nonNil ms (zeroTicket, None) None) as Hitems.
  destruct (fold_left (decodeMember true) ms (zeroTicket, None)) as [t e].
  cbn [fst snd noError andb] in *.
  destruct (forallb memberFits ms).
  - destruct e; [discriminate Herr|].
    specialize (Hitems eq_refl eq_refl). fold (lastItems ms) in Hitems.
    rewrite <- Hitems. unfold isTicketValid.
    destruct (Items t); reflexivity.
  - destruct e; [reflexivity | discriminate Herr].
Qed.

Lemma getTicketFromRequestBody_rejects (body : option Value) :
  acceptableBody body = false ->
  exists e, getTicketFromRequestBody body = Err e.
Proof.
  intros H. rewrite <- getTicketFromRequestBody_isOk in H.
  destruct (getTicketFromRequestBody body) as [t|e]; [discriminate H|].
  exists e. reflexivity.
Qed.

Lemma getTicketFromRequestBody_accepts (body : option Value) :
  acceptableBody body = true ->
  exists t, getTicketFromRequestBody body = Ok t.
Proof.
  intros H. rewrite <- getTicketFromRequestBody_isOk in H.
  destruct (getTicketFromRequestBody body) as [t|e]; [|discriminate H].
  exists t. reflexivity.
Qed.

(** A ticket that comes out of [getTicketFromRequestBody] passed
    [isTicketValid]. *)
Lemma getTicketFromRequestBody_valid (body : option Value) (t : Ticket) :
  getTicketFromRequestBody body = Ok t -> isTicketValid t = true.
Proof.
  unfold getTicketFromRequestBody.
  destruct (Decode _ zeroTicket) as [t' [e|]]; [discriminate|].
  destruct (isTicketValid t') eqn:E; cbn [negb]; [|discriminate].
  intros H. injection H as <-. exact E.
Qed.

(** *** Items that were decoded are valid UTF-8 *)

Lemma storeElems_valid (field : string) (vs : list Value) :
  forall cur,
    forallb utf8.ValidString cur = true ->
    forallb utf8.ValidString (fst (storeElems field vs cur)) = true.
Proof.
  induction vs as [|v vs IH]; intros cur Hcur; [reflexivity|].
  cbn [storeElems].
  assert (Hhd : utf8.ValidString (hd "" cur) = true).
  { destruct cur as [|c cur']; [reflexivity|].
    cbn [forallb] in Hcur. apply andb_true_iff in Hcur as [Hc _]. exact Hc. }
  assert (Htl : forallb utf8.ValidString (tl cur) = true).
  { destruct cur as [|c cur']; [reflexivity|].
    cbn [forallb] in Hcur. apply andb_true_iff in Hcur as [_ Hc]. exact Hc. }
  assert (Hs : utf8.ValidString (fst (storeString field v (hd "" cur))) = true).
  { destruct v; try exact Hhd. cbn. apply ToValid_is_valid. }
  destruct (storeString field v (hd "" cur)) as [s e].
  specialize (IH (tl cur) Htl).
  destruct (storeElems field vs (tl cur)) as [rest e'].
  cbn [fst forallb] in *. rewrite Hs, IH. reflexivity.
Qed.

Lemma decodeMember_validItems (strict : bool) (t : Ticket) (e : option error)
    (m : string * Value) :
  validItems t = true ->
  validItems (fst (decodeMember strict (t, e) m)) = true.
Proof.
  intros Ht. destruct m as [key v]. unfold decodeMember.
  destruct (ticketField key) as [[| |]|].
  - destruct (storeInt _ v (ID t)). exact Ht.
  - destruct (storeInt _ v (Status t)). exact Ht.
  - destruct v as [| | | | vs |]; try exact Ht; [reflexivity|].
    cbn [storeStrings].
    pose proof (storeElems_valid "Ticket.Items" vs
                  (match Items t with Some l => l | None => [] end)) as H.
    destruct (storeElems _ vs _) as [l e']. cbn [fst validItems Items] in *.
    apply H. unfold validItems in Ht. destruct (Items t); [exact Ht | reflexivity].
  - destruct strict; exact Ht.
Qed.

Lemma decodeMembers_validItems (strict : bool) (ms : list (string * Value)) :
  forall st,
    validItems (fst st) = true ->
    validItems (fst (fold_left (decodeMember strict) ms st)) = true.
Proof.
  induction ms as [|m ms IH]; intros [t e] Ht; [exact Ht|].
  cbn [fold_left]. apply IH.
  pose proof (decodeMember_validItems strict t e m Ht) as H.
  destruct (decodeMember strict (t, e) m). exact H.
Qed.

Lemma getTicketFromRequestBody_validItems (body : option Value) (t : Ticket) :
  getTicketFromRequestBody body = Ok t -> validItems t = true.
Proof.
  unfold getTicketFromRequestBody, Decode, NewDecoder, DisallowUnknownFields.
  cbn [input disallowUnknownFields].
  destruct body as [v|]; [|discriminate].
  assert (H : validItems (fst (unmarshalTicket true v zeroTicket)) = true).
  { destruct v; try reflexivity. cbn [unmarshalTicket].
    apply decodeMembers_validItems. reflexivity. }
  destruct (unmarshalTicket true v zeroTicket) as [t' [e|]]; [discriminate|].
  destruct (isTicketValid t'); cbn [negb]; [|discriminate].
  intros Heq. injection Heq as <-. exact H.
Qed.

End DecodedTicket.

(** *** The [ID] of the body and the rest of the decoded ticket *)

Section ClientID.

Import json.

Lemma orElse_None (e : option error) : orElse e None = e.
Proof. destruct e; reflexivity. Qed.

(** A member that names [ID] and fits changes the [ID] and nothing else. *)
Lemma decodeMember_ID (t : Ticket) (e : option error) (m : string * Value) :
  isIDMember m = true -> intValue (snd m) = true ->
  sameButID (fst (decodeMember true (t, e) m)) t
  /\ snd (decodeMember true (t, e) m) = e.
Proof.
  destruct m as [key v]. unfold isIDMember, decodeMember. cbn [fst snd].
  destruct (ticketField key) as [[| |]|]; try discriminate. intros _ Hv.
  pose proof (storeInt_noError "Ticket.ID" v (ID t)) as Herr.
  destruct (storeInt _ v (ID t)) as [n [x|]]; cbn [fst snd] in *.
  - rewrite Hv in Herr. discriminate Herr.
  - split; [split; reflexivity | apply orElse_None].
Qed.

(** Any other member is decoded without a look at the [ID]. *)
Lemma decodeMember_other (ta tb : Ticket) (e : option error) (m : string * Value) :
  isIDMember m = false -> sameButID ta tb ->
  sameButID (fst (decodeMember true (ta, e) m)) (fst (decodeMember true (tb, e) m))
  /\ snd (decodeMember true (ta, e) m) = snd (decodeMember true (tb, e) m).
Proof.
  destruct m as [key v]. unfold isIDMember, decodeMember, sameButID.
  cbn [fst snd]. intros Hm [Hs Hi].
  destruct (ticketField key) as [[| |]|]; try discriminate Hm.
  - rewrite Hs. destruct (storeInt _ v (Status tb)).
    cbn [fst snd Status Items]. auto.
  - rewrite Hi. destruct (storeStrings _ v (Items tb)).
    cbn [fst snd Status Items]. auto.
  - cbn [fst snd]. auto.
Qed.

Lemma decodeMembers_dropID (ms : list (string * Value)) :
  forall ta tb e,
    idsFit ms = true -> sameButID ta tb ->
    sameButID (fst (fold_left (decodeMember true) ms (ta, e)))
              (fst (fold_left (decodeMember true) (dropID ms) (tb, e)))
    /\ snd (fold_left (decodeMember true) ms (ta, e))
       = snd (fold_left (decodeMember true) (dropID ms) (tb, e)).
Proof.
  induction ms as [|m ms IH]; intros ta tb e Hfit Hsame.
  - cbn. auto.
  - cbn [idsFit forallb] in Hfit. apply andb_true_iff in Hfit as [Hm Hms].
    fold (idsFit ms) in Hms. cbn [fold_left dropID filter].
    destruct (isIDMember m) eqn:Eid; cbn [negb orb] in *.
    + destruct (decodeMember_ID ta e m Eid Hm) as [[Hs Hi] He].
      destruct (decodeMember true (ta, e) m) as [ta' e']. cbn [fst snd] in *.
      subst e'. fold (dropID ms). apply IH; [exact Hms|].
      destruct Hsame as [Hs' Hi']. split; congruence.
    + cbn [fold_left]. fold (dropID ms).
      destruct (decodeMember_other ta tb e m Eid Hsame) as [Hsame' He].
      destruct (decodeMember true (ta, e) m) as [ta' ea].
      destruct (decodeMember true (tb, e) m) as [tb' eb]. cbn [fst snd] in *.
      subst eb. apply IH; assumption.
Qed.

Lemma getTicketFromRequestBody_dropID (ms1 ms2 : list (string * Value)) :
  idsFit ms1 = true -> idsFit ms2 = true -> dropID ms1 = dropID ms2 ->
  agreeButID (getTicketFromRequestBody (Some (Obj ms1)))
             (getTicketFromRequestBody (Some (Obj ms2))).
Proof.
  intros H1 H2 Hdrop.
  unfold getTicketFromRequestBody, Decode, NewDecoder, DisallowUnknownFields.
  cbn [input disallowUnknownFields unmarshalTicket].
  assert (Hrefl : sameButID zeroTicket zeroTicket) by (split; reflexivity).
  destruct (decodeMembers_dropID ms1 zeroTicket zeroTicket None H1 Hrefl)
    as [[Hs1 Hi1] He1].
  destruct (decodeMembers_dropID ms2 zeroTicket zeroTicket None H2 Hrefl)
    as [[Hs2 Hi2] He2].
  rewrite <- Hdrop in Hs2, Hi2, He2.
  destruct (fold_left (decodeMember true) ms1 (zeroTicket, None)) as [t1 e1].
  destruct (fold_left (decodeMember true) ms2 (zeroTicket, None)) as [t2 e2].
  destruct (fold_left (decodeMember true) (dropID ms1) (zeroTicket, None))
    as [t0 e0].
  cbn [fst snd] in *. subst e1 e2.
  destruct e0 as [x|]; [reflexivity|].
  unfold isTicketValid. rewrite Hi1, Hi2.
  destruct (Items t0); cbn [negb agreeButID]; [|reflexivity].
  split; congruence.
Qed.

End ClientID.

(** *** A foreign field makes the body unacceptable *)

Section ForeignFields.

Import json.

Lemma stringValue_plain (v : Value) :
  stringValue v = true -> hasForeignField v = false.
Proof. destruct v; try discriminate; reflexivity. Qed.

Lemma stringValues_plain (vs : list Value) :
  forallb stringValue vs = true -> existsb hasForeignField vs = false.
Proof.
  induction vs as [|v vs IH]; [reflexivity|].
  cbn [forallb existsb]. intros H. apply andb_true_iff in H as [Hv Hvs].
  rewrite (stringValue_plain v Hv), (IH Hvs). reflexivity.
Qed.

Lemma memberFits_plain (key : string) (v : Value) :
  memberFits (key, v) = true ->
  match ticketField key with
  | None => true
  | Some _ => hasForeignField v
  end = false.
Proof.
  unfold memberFits. cbn [fst snd].
  destruct (ticketField key) as [[| |]|]; try discriminate.
  - destruct v as [| | [z|] | | |]; try discriminate; reflexivity.
  - destruct v as [| | [z|] | | |]; try discriminate; reflexivity.
  - destruct v as [| | | | vs |]; try discriminate; [reflexivity|].
    cbn [stringsValue]. intros H. cbn. apply stringValues_plain. exact H.
Qed.

Lemma hasForeignField_unacceptable (v : Value) :
  hasForeignField v = true -> acceptableBody (Some v) = false.
Proof.
  destruct v as [| | | | |ms]; try reflexivity.
  cbn [acceptableBody]. intros H.
  destruct (forallb memberFits ms) eqn:Efit; [|reflexivity].
  exfalso. revert H Efit. cbn.
  induction ms as [|[key v] ms IH]; [discriminate|].
  cbn [existsb forallb]. intros H Hfit.
  apply andb_true_iff in Hfit as [Hm Hms].
  rewrite (memberFits_plain key v Hm) in H. cbn [orb] in H.
  exact (IH H Hms).
Qed.

End ForeignFields.

(** *** What the encoder writes for a ticket is read back as the ticket *)

Section RoundTrip.

Import json.

Lemma storeElems_marshalled (field : string) (l : list string) :
  forall cur,
    forallb utf8.ValidString l = true ->
    storeElems field (map (fun s => Str (utf8.ToValid s)) l) cur = (l, None).
Proof.
  induction l as [|s l IH]; intros cur Hl; [reflexivity|].
  cbn [forallb] in Hl. apply andb_true_iff in Hl as [Hs Hl].
  cbn [map storeElems storeString]. rewrite (IH (tl cur) Hl).
  rewrite !(ToValid_fixes_valid s Hs). reflexivity.
Qed.

Lemma decodeMember_ID_int (strict : bool) (t : Ticket) (z : Z) :
  inInt z = true ->
  decodeMember strict (t, None) ("ID", Num (IntLit z))
  = ({| ID := z; Status := Status t; Items := Items t |}, None).
Proof.
  intros Hz. unfold decodeMember.
  change (ticketField "ID") with (Some FieldID).
  cbn [storeInt]. rewrite Hz. reflexivity.
Qed.

Lemma decodeMember_Status_int (strict : bool) (t : Ticket) (z : Z) :
  inInt z = true ->
  decodeMember strict (t, None) ("Status", Num (IntLit z))
  = ({| ID := ID t; Status := z; Items := Items t |}, None).
Proof.
  intros Hz. unfold decodeMember.
  change (ticketField "Status") with (Some FieldStatus).
  cbn [storeInt]. rewrite Hz. reflexivity.
Qed.

Lemma decodeMember_Items_marshalled (strict : bool) (t : Ticket)
    (items : option (list string)) :
  match items with Some l => forallb utf8.ValidString l | None => true end = true ->
  decodeMember strict (t, None)
    ("Items", match items with
              | None => Null
              | Some l => Arr (map (fun s => Str (utf8.ToValid s)) l)
              end)
  = ({| ID := ID t; Status := Status t; Items := items |}, None).
Proof.
  intros Hv. unfold decodeMember.
  change (ticketField "Items") with (Some FieldItems).
  destruct items as [l|]; cbn [storeStrings]; [|reflexivity].
  rewrite (storeElems_marshalled _ l _ Hv). reflexivity.
Qed.

Lemma unmarshal_marshalTicket (strict : bool) (t : Ticket) :
  inRange t = true -> validItems t = true ->
  unmarshalTicket strict (marshalTicket t) zeroTicket = (t, None).
Proof.
  destruct t as [id st items]. unfold inRange, validItems. cbn [ID Status Items].
  intros Hr Hv. apply andb_true_iff in Hr as [Hid Hst].
  unfold marshalTicket, unmarshalTicket. cbn [ID Status Items fold_left].
  rewrite (decodeMember_ID_int strict _ id Hid).
  rewrite (decodeMember_Status_int strict _ st Hst).
  rewrite (decodeMember_Items_marshalled strict _ items Hv).
  reflexivity.
Qed.

Lemma getTicketFromResponse_marshalTicket (t : Ticket) :
  inRange t = true -> validItems t = true ->
  getTicketFromResponse [marshalTicket t] = Ok t.
Proof.
  intros Hr Hv. unfold getTicketFromResponse, Decode, NewDecoder.
  cbn [hd_error input disallowUnknownFields].
  rewrite (unmarshal_marshalTicket false t Hr Hv). reflexivity.
Qed.

End RoundTrip.

(** * The stores *)

Section StubFacts.

Lemma findTicket_Some (ts : list Ticket) (id : Z) (t : Ticket) :
  findTicket ts id = Some t -> In t ts /\ ID t = id.
Proof.
  induction ts as [|x ts IH]; [discriminate|].
  cbn [findTicket]. destruct (ID x =? id) eqn:E.
  - intros H. injection H as <-. apply Z.eqb_eq in E. split; [left; reflexivity | exact E].
  - intros H. destruct (IH H) as [Hin Hid]. split; [right; exact Hin | exact Hid].
Qed.

(** The lookup fails exactly when no stored ticket has the ID. *)
Lemma findTicket_None (ts : list Ticket) (id : Z) :
  findTicket ts id = None <-> (forall t, In t ts -> ID t <> id).
Proof.
  induction ts as [|x ts IH]; cbn [findTicket].
  - split; [intros _ t [] | reflexivity].
  - destruct (ID x =? id) eqn:E.
    + apply Z.eqb_eq in E. split; [discriminate|].
      intros H. exfalso. exact (H x (or_introl eq_refl) E).
    + apply Z.eqb_neq in E. rewrite IH. split.
      * intros H t [<- | Hin]; [exact E | exact (H t Hin)].
      * intros H t Hin. exact (H t (or_intror Hin)).
Qed.

Lemma findTicket_holds (ts : list Ticket) (id : Z) :
  (exists t, In t ts /\ ID t = id) <-> (exists t, findTicket ts id = Some t).
Proof.
  split.
  - intros [t [Hin Hid]]. destruct (findTicket ts id) as [x|] eqn:E.
    + exists x. reflexivity.
    + exfalso. exact (proj1 (findTicket_None ts id) E t Hin Hid).
  - intros [t H]. exists t. exact (findTicket_Some ts id t H).
Qed.

Lemma findTicket_app (ts : list Ticket) (x : Ticket) (id : Z) :
  findTicket (ts ++ [x]) id
  = match findTicket ts id with
    | Some t => Some t
    | None => if ID x =? id then Some x else None
    end.
Proof.
  induction ts as [|y ts IH]; cbn [app findTicket]; [reflexivity|].
  destruct (ID y =? id); [reflexivity | exact IH].
Qed.

Lemma numbered_empty : numbered emptyStub.
Proof. reflexivity. Qed.

Lemma numbered_StoreTicket (s : StubKitchenStore) (t : Ticket) :
  numbered s -> numbered (fst (StoreTicket s t)).
Proof.
  unfold numbered. cbn [StoreTicket StubKitchenStore_KitchenStore
    StubKitchenStore_StoreTicket fst tickets]. intros H.
  rewrite map_app, length_app, H. cbn [map List.length ID].
  rewrite Nat.add_1_r, seq_S, map_app. reflexivity.
Qed.

Lemma numbered_NoDup (s : StubKitchenStore) :
  numbered s -> NoDup (map ID (tickets s)).
Proof.
  unfold numbered. intros ->.
  apply Injective_map_NoDup; [exact Nat2Z.inj | apply seq_NoDup].
Qed.

Lemma numbered_fresh (s : StubKitchenStore) :
  numbered s -> findTicket (tickets s) (Z.of_nat (List.length (tickets s))) = None.
Proof.
  intros H. apply findTicket_None. intros t Hin Hid.
  apply (in_map ID) in Hin. rewrite H in Hin.
  apply in_map_iff in Hin as [i [Hi Hseq]]. apply in_seq in Hseq. lia.
Qed.

(** A sequence of store operations on a numbered store: the store stays
    numbered and operation [i] returns the length before it plus [i]. *)
Lemma Stub_storeAll (ts : list Ticket) :
  forall s, numbered s ->
    numbered (fst (storeAll s ts))
    /\ snd (storeAll s ts)
       = map (fun i => Ok (Z.of_nat i)) (seq (List.length (tickets s)) (List.length ts)).
Proof.
  induction ts as [|t ts IH]; intros s Hs.
  - split; [exact Hs | reflexivity].
  - cbn [storeAll StoreTicket StubKitchenStore_KitchenStore
      StubKitchenStore_StoreTicket ID].
    pose proof (numbered_StoreTicket s t Hs) as Hs'.
    cbn [StoreTicket StubKitchenStore_KitchenStore
      StubKitchenStore_StoreTicket fst] in Hs'.
    destruct (IH _ Hs') as [Hn Hr].
    destruct (storeAll _ ts) as [s2 rs]. cbn [fst snd] in *.
    split; [exact Hn|]. rewrite Hr. cbn [tickets].
    rewrite length_app. cbn [List.length seq map].
    rewrite Nat.add_1_r. reflexivity.
Qed.

End StubFacts.

(** * The handler *)

Section HandlerFacts.

Context {S : Type} `{KitchenStore S}.

Lemma ServeHTTP_GET (k : KitchenServer S) (w : ResponseRecorder) (r : http.Request) :
  http.Method r = http.MethodGet -> ServeHTTP k w r = getTicket k w r.
Proof. unfold ServeHTTP. intros ->. reflexivity. Qed.

Lemma ServeHTTP_POST (k : KitchenServer S) (w : ResponseRecorder) (r : http.Request) :
  http.Method r = http.MethodPost -> ServeHTTP k w r = createTicket k w r.
Proof. unfold ServeHTTP. intros ->. reflexivity. Qed.

Lemma ServeHTTP_other (k : KitchenServer S) (w : ResponseRecorder) (r : http.Request) :
  http.Method r <> http.MethodGet -> http.Method r <> http.MethodPost ->
  ServeHTTP k w r = (k, w).
Proof.
  unfold ServeHTTP. intros Hget Hpost.
  apply String.eqb_neq in Hget. apply String.eqb_neq in Hpost.
  rewrite Hget, Hpost. reflexivity.
Qed.

(** A body that is refused: 400, and the server is the one that came in. *)
Lemma createTicket_refused (k : KitchenServer S) (w : ResponseRecorder)
    (r : http.Request) (e : error) :
  getTicketFromRequestBody (http.Body r) = Err e ->
  createTicket k w r = (k, WriteHeader w http.StatusBadRequest).
Proof. unfold createTicket. intros ->. reflexivity. Qed.

(** A body that is taken: the ticket goes to the store with the status
    PENDING, and the answer follows what the store returns. *)
Lemma createTicket_taken (k : KitchenServer S) (w : ResponseRecorder)
    (r : http.Request) (t : Ticket) :
  getTicketFromRequestBody (http.Body r) = Ok t ->
  createTicket k w r
  = (let '(s, res) :=
       StoreTicket (store k)
         {| ID := ID t; Status := STATUS_PENDING; Items := Items t |} in
     match res with
     | Err _ => ({| store := s |}, WriteHeader w http.StatusBadRequest)
     | Ok id =>
       ({| store := s |},
        Write (WriteHeader w http.StatusAccepted)
              (marshalCreateTicketResponse {| ResponseID := id |}))
     end).
Proof. unfold createTicket. intros ->. reflexivity. Qed.

(** The get path: the answer follows what the store returns. *)
Lemma getTicket_parsed (k : KitchenServer S) (w : ResponseRecorder)
    (r : http.Request) (ticketID : Z) :
  strconv.Atoi (strings.TrimPrefix (http.Path r) "/ticket/") = Ok ticketID ->
  getTicket k w r
  = (let '(s, res) := GetTicketByID (store k) ticketID in
     match res with
     | Err _ => ({| store := s |}, WriteHeader w http.StatusNotFound)
     | Ok ticket =>
       ({| store := s |},
        Write (WriteHeader w http.StatusOK) (marshalTicket ticket))
     end).
Proof. unfold getTicket. intros ->. reflexivity. Qed.

End HandlerFacts.

Lemma newGetTicketRequest_parsed (ticketID : Z) :
  inInt ticketID = true ->
  strconv.Atoi (strings.TrimPrefix (http.Path (newGetTicketRequest ticketID)) "/ticket/")
  = Ok ticketID.
Proof.
  intros H. unfold newGetTicketRequest. cbn [http.Path].
  rewrite TrimPrefix_ticket. apply Atoi_Itoa. exact H.
Qed.

(** * The claims *)

(** C1: after a POST whose body decodes and validates, the ticket the store
    holds for it has the status PENDING whatever status the body carried, and
    its ID is the ID of the 202 response.  With the store of the tests: the
    response is 202 with the document [{"ID": n}], [n] the number of tickets
    held before; the store holds one more ticket, with that ID, the status
    PENDING and the items decoded from the body; and in a store whose IDs are
    the positions a fetch of [n] returns that ticket. *)
Theorem createTicket_persists_pending
    (s : StubKitchenStore) (path : string) (body : option json.Value) (t : Ticket) :
  getTicketFromRequestBody body = Ok t ->
  let n := Z.of_nat (List.length (tickets s)) in
  let persisted := {| ID := n; Status := STATUS_PENDING; Items := Items t |} in
  let after := {| tickets := tickets s ++ [persisted] |} in
  ServeHTTP {| store := s |} NewRecorder (newPostRequest path body)
  = ({| store := after |},
     {| Code := http.StatusAccepted;
        wroteHeader := true;
        Body := [json.Obj [("ID", json.Num (json.IntLit n))]] |})
  /\ (numbered s -> GetTicketByID after n = (after, Ok persisted)).
Proof.
  intros Hbody n persisted after. split.
  - rewrite ServeHTTP_POST by reflexivity.
    rewrite (createTicket_taken _ _ _ t) by exact Hbody. reflexivity.
  - intros Hs. cbn [GetTicketByID StubKitchenStore_KitchenStore].
    unfold StubKitchenStore_GetTicketByID. subst after persisted n.
    cbn [tickets]. rewrite findTicket_app, (numbered_fresh s Hs).
    cbn [ID]. rewrite Z.eqb_refl. reflexivity.
Qed.

Lemma createTicket_persists_pending_witness :
  let body :=
    Some (json.Obj [ ("Status", json.Num (json.IntLit 2));
                     ("ID", json.Num (json.IntLit 77));
                     ("Items", json.Arr [json.Str "pizza"; json.Str "water"]) ]) in
  let t := {| ID := 77; Status := 2; Items := Some ["pizza"; "water"] |} in
  let s :=
    {| tickets :=
         [ {| ID := 0; Status := STATUS_PENDING; Items := Some ["burger"; "fries"] |};
           {| ID := 1; Status := STATUS_PENDING; Items := Some ["burger"; "fries"] |} ] |} in
  let persisted := {| ID := 2; Status := STATUS_PENDING; Items := Some ["pizza"; "water"] |} in
  let after := {| tickets := tickets s ++ [persisted] |} in
  getTicketFromRequestBody body = Ok t
  /\ numbered s
  /\ ServeHTTP {| store := s |} NewRecorder (newPostRequest "/ticket/" body)
     = ({| store := after |},
        {| Code := 202; wroteHeader := true;
           Body := [json.Obj [("ID", json.Num (json.IntLit 2))]] |})
  /\ GetTicketByID after 2 = (after, Ok persisted).
Proof.
  intros body t s persisted after.
  assert (Hbody : getTicketFromRequestBody body = Ok t) by reflexivity.
  assert (Hs : numbered s) by reflexivity.
  split; [exact Hbody|]. split; [exact Hs|].
  destruct (createTicket_persists_pending s "/ticket/" body t Hbody)
    as [Hserve Hfetch].
  split; [exact Hserve | exact (Hfetch Hs)].
Defined.

(** C2 (as stated, refuted): a body that is valid JSON, has a non-null
    [Items] sequence and no unknown field, and is answered 400: its [ID] is a
    JSON string, which the decoder does not store into a Go [int]. *)
Lemma untyped_ID_is_refused_counterexample :
  let members :=
    [ ("Items", json.Arr [json.Str "burger"; json.Str "fries"]);
      ("ID", json.Str "7") ] in
  forallb isKnown members = true
  /\ isArray (lastItems members) = true
  /\ ServeHTTP {| store := emptyStub |} NewRecorder
       (newPostRequest "/ticket/" (Some (json.Obj members)))
     = ({| store := emptyStub |},
        {| Code := http.StatusBadRequest; wroteHeader := true; Body := [] |}).
Proof. repeat split. Qed.

(** C2 (amended): for every POST whose body is a JSON object in which every
    member names a field of [Ticket] and carries a value of the type of that
    field ([null] or an integer within the range of [int] for [ID] and
    [Status], [null] or an array of strings and [null]s for [Items]) and in
    which the last [Items] is an array: the body decodes to a ticket, and
    when the store operation on that ticket (status PENDING) returns [n], the
    response is 202 with the document [{"ID": n}] as its body and the store
    is the one the operation left. *)
Theorem createTicket_accepts_fitting_body
    {S : Type} `{KitchenStore S}
    (k : KitchenServer S) (path : string) (body : option json.Value) :
  acceptableBody body = true ->
  exists t,
    getTicketFromRequestBody body = Ok t
    /\ forall (s' : S) (n : Z),
         StoreTicket (store k)
           {| ID := ID t; Status := STATUS_PENDING; Items := Items t |}
         = (s', Ok n) ->
         ServeHTTP k NewRecorder (newPostRequest path body)
         = ({| store := s' |},
            {| Code := http.StatusAccepted;
               wroteHeader := true;
               Body := [json.Obj [("ID", json.Num (json.IntLit n))]] |}).
Proof.
  intros Hbody.
  destruct (getTicketFromRequestBody_accepts body Hbody) as [t Ht].
  exists t. split; [exact Ht|]. intros s' n Hstore.
  rewrite ServeHTTP_POST by reflexivity.
  rewrite (createTicket_taken _ _ _ t) by exact Ht.
  rewrite Hstore. reflexivity.
Qed.

Lemma createTicket_accepts_fitting_body_witness :
  let body := Some (json.Obj [("Items", json.Arr [json.Str "burger"; json.Str "fries"])]) in
  let stored := {| ID := 2; Status := STATUS_PENDING; Items := Some ["burger"; "fries"] |} in
  acceptableBody body = true
  /\ ServeHTTP {| store := seeded |} NewRecorder (newPostRequest "/ticket/" body)
     = ({| store := {| tickets := tickets seeded ++ [stored] |} |},
        {| Code := 202; wroteHeader := true;
           Body := [json.Obj [("ID", json.Num (json.IntLit 2))]] |}).
Proof.
  intros body stored. split; [reflexivity|].
  destruct (createTicket_accepts_fitting_body {| store := seeded |} "/ticket/" body eq_refl)
    as [t [Ht Hserve]].
  assert (Hitems : Items t = Some ["burger"; "fries"]).
  { assert (Hdecoded : getTicketFromRequestBody body
                       = Ok {| ID := 0; Status := 0; Items := Some ["burger"; "fries"] |})
      by reflexivity.
    rewrite Hdecoded in Ht. injection Ht as <-. reflexivity. }
  apply Hserve.
  cbn [StoreTicket StubKitchenStore_KitchenStore StubKitchenStore_StoreTicket
       store ID Status Items].
  rewrite Hitems. reflexivity.
Defined.

(** C5 (as stated, refuted): two bodies that differ only in the [ID] member,
    an integer in one and a string in the other, and two different
    responses, 202 and 400. *)
Lemma client_ID_type_matters_counterexample :
  let items := ("Items", json.Arr [json.Str "burger"]) in
  let members1 := [ ("ID", json.Num (json.IntLit 7)); items ] in
  let members2 := [ ("ID", json.Str "7"); items ] in
  dropID members1 = dropID members2
  /\ ServeHTTP {| store := emptyStub |} NewRecorder
       (newPostRequest "/ticket/" (Some (json.Obj members1)))
     <> ServeHTTP {| store := emptyStub |} NewRecorder
          (newPostRequest "/ticket/" (Some (json.Obj members2))).
Proof. split; [reflexivity | discriminate]. Qed.

(** C5 (amended): for any two POST requests whose bodies are objects that
    differ only in their [ID] members, each of which is [null] or an integer
    within the range of [int], the response and the store after the request
    are the same (with the store of the tests, which overwrites the ID). *)
Theorem createTicket_ignores_client_ID
    (s : StubKitchenStore) (path : string)
    (members1 members2 : list (string * json.Value)) :
  idsFit members1 = true -> idsFit members2 = true ->
  dropID members1 = dropID members2 ->
  ServeHTTP {| store := s |} NewRecorder
    (newPostRequest path (Some (json.Obj members1)))
  = ServeHTTP {| store := s |} NewRecorder
      (newPostRequest path (Some (json.Obj members2))).
Proof.
  intros H1 H2 Hdrop.
  pose proof (getTicketFromRequestBody_dropID members1 members2 H1 H2 Hdrop) as Hagree.
  rewrite !ServeHTTP_POST by reflexivity. unfold createTicket.
  cbn [http.Body newPostRequest].
  destruct (getTicketFromRequestBody (Some (json.Obj members1))) as [t1|e1];
    destruct (getTicketFromRequestBody (Some (json.Obj members2))) as [t2|e2];
    cbn [agreeButID] in Hagree; try contradiction.
  - destruct Hagree as [_ Hitems].
    cbn [StoreTicket StubKitchenStore_KitchenStore StubKitchenStore_StoreTicket
         store Status Items ID].
    rewrite Hitems. reflexivity.
  - reflexivity.
Qed.

Lemma createTicket_ignores_client_ID_witness :
  let items := ("Items", json.Arr [json.Str "burger"]) in
  let members1 := [ ("ID", json.Num (json.IntLit 7)); items ] in
  let members2 := [ items; ("id", json.Num (json.IntLit 4096)) ] in
  idsFit members1 = true /\ idsFit members2 = true
  /\ dropID members1 = dropID members2
  /\ ServeHTTP {| store := emptyStub |} NewRecorder
       (newPostRequest "/ticket/" (Some (json.Obj members1)))
     = ServeHTTP {| store := emptyStub |} NewRecorder
         (newPostRequest "/ticket/" (Some (json.Obj members2))).
Proof.
  intros items members1 members2.
  split; [reflexivity|]. split; [reflexivity|]. split; [reflexivity|].
  exact (createTicket_ignores_client_ID emptyStub "/ticket/" members1 members2
           eq_refl eq_refl eq_refl).
Defined.

(** After the members of an object, [Items] is empty and non-nil when the
    last member that names it is the empty array. *)
Lemma decodeMembers_empty_items (ms : list (string * json.Value)) :
  forall st seen,
    (seen = Some (json.Arr []) -> Items (fst st) = Some []) ->
    lastItemsFrom seen ms = Some (json.Arr []) ->
    Items (fst (fold_left (decodeMember true) ms st)) = Some [].
Proof.
  induction ms as [|[key v] ms IH]; intros [t e] seen Hseen Hlast.
  - exact (Hseen Hlast).
  - cbn [fold_left]. unfold lastItemsFrom in Hlast. cbn [fold_left] in Hlast.
    refine (IH _ _ _ Hlast).
    unfold isItemsMember, decodeMember. cbn [fst snd] in *.
    destruct (ticketField key) as [[| |]|].
    + destruct (json.storeInt _ v (ID t)). exact Hseen.
    + destruct (json.storeInt _ v (Status t)). exact Hseen.
    + intros Hv. injection Hv as ->. reflexivity.
    + exact Hseen.
Qed.

(** C6: a POST body whose [Items] is absent or [null] is answered 400 with no
    body, whatever else it holds; validation looks at whether [Items] is nil
    and at nothing else, its length included; the body [{"Items": []}] decodes
    to a ticket with an empty, non-nil [Items], passes validation and is
    answered 202; and so does every body whose members fit and whose [Items]
    is the empty array. *)
Theorem items_validation_checks_absence_only :
  (forall (S : Type) (KS : KitchenStore S) (k : KitchenServer S)
          (path : string) (body : option json.Value),
      isNullOrAbsent (bodyItems body) = true ->
      ServeHTTP k NewRecorder (newPostRequest path body)
      = (k, {| Code := http.StatusBadRequest; wroteHeader := true; Body := [] |}))
  /\ (forall t : Ticket, isTicketValid t = nonNil (Items t))
  /\ (getTicketFromRequestBody (Some (json.Obj [("Items", json.Arr [])]))
      = Ok {| ID := 0; Status := 0; Items := Some [] |}
      /\ forall (s : StubKitchenStore) (path : string),
           Code (snd (ServeHTTP {| store := s |} NewRecorder
                        (newPostRequest path
                           (Some (json.Obj [("Items", json.Arr [])])))))
           = http.StatusAccepted)
  /\ (forall (s : StubKitchenStore) (path : string)
             (members : list (string * json.Value)),
        forallb memberFits members = true ->
        lastItems members = Some (json.Arr []) ->
        exists t,
          getTicketFromRequestBody (Some (json.Obj members)) = Ok t
          /\ Items t = Some []
          /\ isTicketValid t = true
          /\ Code (snd (ServeHTTP {| store := s |} NewRecorder
                          (newPostRequest path (Some (json.Obj members)))))
             = http.StatusAccepted).
Proof.
  split; [|split; [|split]].
  - intros S KS k path body Hitems.
    assert (Hbody : acceptableBody body = false).
    { unfold acceptableBody. unfold bodyItems in Hitems.
      destruct body as [[| | | | |ms]|]; try reflexivity.
      destruct (lastItems ms) as [[| | | | |]|]; try discriminate Hitems;
        apply andb_false_r. }
    destruct (getTicketFromRequestBody_rejects body Hbody) as [e He].
    rewrite ServeHTTP_POST by reflexivity.
    apply (createTicket_refused k NewRecorder (newPostRequest path body) e He).
  - intros t. unfold isTicketValid. destruct (Items t); reflexivity.
  - split; [reflexivity|]. intros s path.
    rewrite ServeHTTP_POST by reflexivity.
    rewrite (createTicket_taken _ _ _ {| ID := 0; Status := 0; Items := Some [] |})
      by reflexivity.
    reflexivity.
  - intros s path members Hfit Hlast.
    assert (Hbody : acceptableBody (Some (json.Obj members)) = true).
    { cbn [acceptableBody]. rewrite Hfit, Hlast. reflexivity. }
    destruct (getTicketFromRequestBody_accepts _ Hbody) as [t Ht].
    exists t. split; [exact Ht|].
    assert (Hitems : Items t = Some []).
    { revert Ht.
      unfold getTicketFromRequestBody, Decode, NewDecoder, DisallowUnknownFields.
      cbn [input disallowUnknownFields unmarshalTicket].
      pose proof (decodeMembers_empty_items members (zeroTicket, None) None
                    (fun H => ltac:(discriminate H)) Hlast) as H.
      destruct (fold_left (decodeMember true) members (zeroTicket, None))
        as [t' [e|]]; [discriminate|].
      destruct (isTicketValid t'); cbn [negb]; [|discriminate].
      intros Heq. injection Heq as <-. exact H. }
    split; [exact Hitems|].
    split; [exact (getTicketFromRequestBody_valid _ t Ht)|].
    rewrite ServeHTTP_POST by reflexivity.
    rewrite (createTicket_taken _ _ _ t) by exact Ht. reflexivity.
Qed.

Lemma items_validation_checks_absence_only_witness :
  let missing := Some (json.Obj [("text", json.Str "this is an invalid ticket JSON")]) in
  let null := Some (json.Obj [("Items", json.Null)]) in
  let empty := [("Status", json.Num (json.IntLit 1)); ("items", json.Arr [])] in
  ServeHTTP {| store := emptyStub |} NewRecorder (newPostRequest "/ticket/" missing)
  = ({| store := emptyStub |},
     {| Code := http.StatusBadRequest; wroteHeader := true; Body := [] |})
  /\ ServeHTTP {| store := emptyStub |} NewRecorder (newPostRequest "/ticket/" null)
     = ({| store := emptyStub |},
        {| Code := http.StatusBadRequest; wroteHeader := true; Body := [] |})
  /\ isTicketValid {| ID := 0; Status := 0; Items := Some [] |} = true
  /\ exists t,
       getTicketFromRequestBody (Some (json.Obj empty)) = Ok t
       /\ Items t = Some []
       /\ isTicketValid t = true
       /\ Code (snd (ServeHTTP {| store := emptyStub |} NewRecorder
                       (newPostRequest "/ticket/" (Some (json.Obj empty)))))
          = http.StatusAccepted.
Proof.
  intros missing null empty.
  destruct items_validation_checks_absence_only as [Hreject [Hvalid [_ Hempty]]].
  split; [exact (Hreject _ _ {| store := emptyStub |} "/ticket/" missing eq_refl)|].
  split; [exact (Hreject _ _ {| store := emptyStub |} "/ticket/" null eq_refl)|].
  split; [exact (Hvalid {| ID := 0; Status := 0; Items := Some [] |})|].
  exact (Hempty emptyStub "/ticket/" empty eq_refl eq_refl).
Defined.

(** C7: decoding of the POST body is strict: every body with a member whose
    key names no field of [Ticket] is answered 400 with no body, and the
    server is left as it was. *)
Theorem createTicket_rejects_foreign_fields
    {S : Type} `{KitchenStore S}
    (k : KitchenServer S) (path : string) (v : json.Value) :
  hasForeignField v = true ->
  ServeHTTP k NewRecorder (newPostRequest path (Some v))
  = (k, {| Code := http.StatusBadRequest; wroteHeader := true; Body := [] |}).
Proof.
  intros Hv.
  destruct (getTicketFromRequestBody_rejects (Some v)
              (hasForeignField_unacceptable v Hv)) as [e He].
  rewrite ServeHTTP_POST by reflexivity.
  apply (createTicket_refused k NewRecorder (newPostRequest path (Some v)) e He).
Qed.

Lemma createTicket_rejects_foreign_fields_witness :
  let v := json.Obj [ ("Items", json.Arr [json.Str "burger"]);
                      ("Notes", json.Str "no onions") ] in
  hasForeignField v = true
  /\ ServeHTTP {| store := emptyStub |} NewRecorder (newPostRequest "/ticket/" (Some v))
     = ({| store := emptyStub |},
        {| Code := http.StatusBadRequest; wroteHeader := true; Body := [] |}).
Proof.
  intros v. split; [reflexivity|].
  exact (createTicket_rejects_foreign_fields {| store := emptyStub |} "/ticket/" v eq_refl).
Defined.

(** C9: a request whose method is neither GET nor POST: the handler writes
    nothing, no status and no body, and the server and its store are the ones
    that came in; run on a store that records its calls, the record stays
    empty. *)
Theorem ServeHTTP_ignores_other_methods
    {S : Type} `{KitchenStore S}
    (k : KitchenServer S) (w : ResponseRecorder) (r : http.Request) :
  http.Method r <> http.MethodGet -> http.Method r <> http.MethodPost ->
  ServeHTTP k w r = (k, w)
  /\ calls (store (fst (ServeHTTP {| store := watch (store k) |} w r))) = [].
Proof.
  intros Hget Hpost. split.
  - apply ServeHTTP_other; assumption.
  - rewrite ServeHTTP_other by assumption. reflexivity.
Qed.

Lemma ServeHTTP_ignores_other_methods_witness :
  let r := {| http.Method := "DELETE"; http.Path := "/ticket/1"; http.Body := None |} in
  let k := {| store := emptyStub |} in
  http.Method r <> http.MethodGet /\ http.Method r <> http.MethodPost
  /\ ServeHTTP k NewRecorder r = (k, NewRecorder)
  /\ calls (store (fst (ServeHTTP {| store := watch (store k) |} NewRecorder r))) = [].
Proof.
  intros r k.
  assert (Hget : http.Method r <> http.MethodGet) by discriminate.
  assert (Hpost : http.Method r <> http.MethodPost) by discriminate.
  split; [exact Hget|]. split; [exact Hpost|].
  exact (ServeHTTP_ignores_other_methods k NewRecorder r Hget Hpost).
Defined.

(** C10: a POST that fails the decoding of the body or the validation of
    [Items] is answered 400 and never reaches the store: the server after the
    request is the server before it, and a store that records its calls
    records none. *)
Theorem createTicket_refusal_spares_store
    {S : Type} `{KitchenStore S}
    (k : KitchenServer S) (path : string) (body : option json.Value) (e : error) :
  getTicketFromRequestBody body = Err e ->
  ServeHTTP k NewRecorder (newPostRequest path body)
  = (k, {| Code := http.StatusBadRequest; wroteHeader := true; Body := [] |})
  /\ calls (store (fst (ServeHTTP {| store := watch (store k) |} NewRecorder
                          (newPostRequest path body)))) = [].
Proof.
  intros He. split.
  - rewrite ServeHTTP_POST by reflexivity.
    apply (createTicket_refused k NewRecorder (newPostRequest path body) e He).
  - rewrite ServeHTTP_POST by reflexivity.
    rewrite (createTicket_refused _ NewRecorder (newPostRequest path body) e He).
    reflexivity.
Qed.

Lemma createTicket_refusal_spares_store_witness :
  let body := Some (json.Obj [("Items", json.Null)]) in
  let k := {| store := emptyStub |} in
  getTicketFromRequestBody body
  = Err (Errorf "some fields of ticket JSON are empty, cannot persist")
  /\ ServeHTTP k NewRecorder (newPostRequest "/ticket/" body)
     = (k, {| Code := http.StatusBadRequest; wroteHeader := true; Body := [] |})
  /\ calls (store (fst (ServeHTTP {| store := watch (store k) |} NewRecorder
                          (newPostRequest "/ticket/" body)))) = [].
Proof.
  intros body k.
  assert (He : getTicketFromRequestBody body
               = Err (Errorf "some fields of ticket JSON are empty, cannot persist"))
    by reflexivity.
  split; [exact He|].
  exact (createTicket_refusal_spares_store k "/ticket/" body _ He).
Defined.

(** The get path on the store of the tests. *)

Lemma Stub_getTicket_found (s : StubKitchenStore) (id : Z) (t : Ticket) :
  inInt id = true -> findTicket (tickets s) id = Some t ->
  ServeHTTP {| store := s |} NewRecorder (newGetTicketRequest id)
  = ({| store := s |},
     {| Code := http.StatusOK; wroteHeader := true; Body := [marshalTicket t] |}).
Proof.
  intros Hid Hfind. rewrite ServeHTTP_GET by reflexivity.
  rewrite (getTicket_parsed _ _ _ id) by (apply newGetTicketRequest_parsed; exact Hid).
  cbn [GetTicketByID StubKitchenStore_KitchenStore store].
  unfold StubKitchenStore_GetTicketByID. rewrite Hfind. reflexivity.
Qed.

(** An ID that no ticket of the store has: 404 and no body. *)
Lemma Stub_getTicket_absent (s : StubKitchenStore) (id : Z) :
  inInt id = true -> (forall t, In t (tickets s) -> ID t <> id) ->
  ServeHTTP {| store := s |} NewRecorder (newGetTicketRequest id)
  = ({| store := s |},
     {| Code := http.StatusNotFound; wroteHeader := true; Body := [] |}).
Proof.
  intros Hid Habsent. apply findTicket_None in Habsent.
  rewrite ServeHTTP_GET by reflexivity.
  rewrite (getTicket_parsed _ _ _ id) by (apply newGetTicketRequest_parsed; exact Hid).
  cbn [GetTicketByID StubKitchenStore_KitchenStore store].
  unfold StubKitchenStore_GetTicketByID. rewrite Habsent. reflexivity.
Qed.

(** The handler answers 404 to whatever failure the store reports. *)
Lemma getTicket_failure_is_404 {S : Type} `{KitchenStore S}
    (k : KitchenServer S) (id : Z) (s' : S) (e : error) :
  inInt id = true -> GetTicketByID (store k) id = (s', Err e) ->
  ServeHTTP k NewRecorder (newGetTicketRequest id)
  = ({| store := s' |},
     {| Code := http.StatusNotFound; wroteHeader := true; Body := [] |}).
Proof.
  intros Hid Hget. rewrite ServeHTTP_GET by reflexivity.
  rewrite (getTicket_parsed _ _ _ id) by (apply newGetTicketRequest_parsed; exact Hid).
  rewrite Hget. reflexivity.
Qed.

(** The first ticket with an ID, said without the lookup of the store: the
    tickets before it have other IDs. *)
Lemma findTicket_first (ts : list Ticket) (id : Z) (t : Ticket) :
  In t ts -> ID t = id ->
  exists before first after,
    ts = (before ++ first :: after)%list
    /\ ID first = id
    /\ (forall x, In x before -> ID x <> id)
    /\ findTicket ts id = Some first.
Proof.
  induction ts as [|x ts IH]; intros Hin Hid; [destruct Hin|].
  cbn [findTicket]. destruct (ID x =? id) eqn:E.
  - apply Z.eqb_eq in E. exists [], x, ts.
    split; [reflexivity|]. split; [exact E|]. split; [intros y []|reflexivity].
  - apply Z.eqb_neq in E. destruct Hin as [-> | Hin]; [contradiction|].
    destruct (IH Hin Hid) as [before [first [after [Hsplit [Hfirst [Hbefore Hfind]]]]]].
    exists (x :: before), first, after.
    split; [rewrite Hsplit; reflexivity|]. split; [exact Hfirst|].
    split; [|exact Hfind].
    intros y [<- | Hy]; [exact E | exact (Hbefore y Hy)].
Qed.

Lemma NoDup_ID_same (ts : list Ticket) (a b : Ticket) :
  NoDup (map ID ts) -> In a ts -> In b ts -> ID a = ID b -> a = b.
Proof.
  induction ts as [|x ts IH]; intros Hnd Ha Hb Hid; [destruct Ha|].
  cbn [map] in Hnd. inversion Hnd as [|? ? Hnotin Hnd']; subst.
  destruct Ha as [-> | Ha], Hb as [-> | Hb].
  - reflexivity.
  - exfalso. apply Hnotin. rewrite Hid. apply in_map. exact Hb.
  - exfalso. apply Hnotin. rewrite <- Hid. apply in_map. exact Ha.
  - exact (IH Hnd' Ha Hb Hid).
Qed.

(** C3 (as stated, refuted), twice.  A stored ticket with an item that is
    not valid UTF-8 (the single byte FF): GET answers 200, and the body
    decodes to a ticket whose item is U+FFFD, not the stored byte, since the
    encoder coerces the strings it writes to valid UTF-8.  And a store that
    holds two tickets under one ID (the store [TestGETTicket] starts from,
    after one POST: the new ticket gets the ID 2, which the pizza ticket
    has): GET for 2 answers 200 with the pizza ticket, so the body does not
    decode to the salad ticket that the store holds under 2 as well. *)
Lemma stored_ticket_not_read_back_counterexample :
  (let t := {| ID := 1; Status := STATUS_ACCEPTED;
               Items := Some [String (ascii_of_N 255) ""] |} in
   let s := {| tickets := [t] |} in
   let w := snd (ServeHTTP {| store := s |} NewRecorder (newGetTicketRequest 1)) in
   In t (tickets s) /\ ID t = 1
   /\ Code w = http.StatusOK
   /\ getTicketFromResponse (Body w)
      = Ok {| ID := 1; Status := STATUS_ACCEPTED; Items := Some [utf8.RuneError] |}
   /\ getTicketFromResponse (Body w) <> Ok t)
  /\ (let body := Some (json.Obj [("Items", json.Arr [json.Str "salad"])]) in
      let salad := {| ID := 2; Status := STATUS_PENDING; Items := Some ["salad"] |} in
      let pizza := {| ID := 2; Status := STATUS_PENDING; Items := Some ["pizza"; "water"] |} in
      let s := store (fst (ServeHTTP {| store := seeded |} NewRecorder
                             (newPostRequest "/ticket/" body))) in
      let w := snd (ServeHTTP {| store := s |} NewRecorder (newGetTicketRequest 2)) in
      In salad (tickets s) /\ ID salad = 2
      /\ validItems salad = true
      /\ Code w = http.StatusOK
      /\ getTicketFromResponse (Body w) = Ok pizza
      /\ getTicketFromResponse (Body w) <> Ok salad).
Proof.
  split.
  - split; [left; reflexivity|]. split; [reflexivity|]. split; [reflexivity|].
    split; [reflexivity|]. vm_compute. discriminate.
  - split; [right; right; left; reflexivity|]. split; [reflexivity|].
    split; [reflexivity|]. split; [reflexivity|]. split; [reflexivity|].
    vm_compute. discriminate.
Qed.

(** C3 (amended): for every ID for which the store holds a ticket, GET
    [/ticket/{id}] is answered with the first stored ticket that has the ID,
    which is the stored ticket with that ID when the stored IDs are pairwise
    distinct: the answer is 200 with one JSON document, the store is left as
    it was, and when the items of that ticket are valid UTF-8 the document
    decoded back into a [Ticket] is that ticket: same ID, same status, same
    items in the same order, a nil [Items] nil and an empty one empty.
    ([inRange] says that [ID] and [Status] are Go [int]s.) *)
Theorem getTicket_round_trip (s : StubKitchenStore) (id : Z) (t : Ticket) :
  In t (tickets s) -> ID t = id ->
  exists before first after,
    tickets s = (before ++ first :: after)%list
    /\ ID first = id
    /\ (forall x, In x before -> ID x <> id)
    /\ (NoDup (map ID (tickets s)) -> first = t)
    /\ (inRange first = true ->
        ServeHTTP {| store := s |} NewRecorder (newGetTicketRequest id)
        = ({| store := s |},
           {| Code := http.StatusOK; wroteHeader := true;
              Body := [marshalTicket first] |})
        /\ (validItems first = true ->
            getTicketFromResponse [marshalTicket first] = Ok first)).
Proof.
  intros Hin Hid.
  destruct (findTicket_first (tickets s) id t Hin Hid)
    as [before [first [after [Hsplit [Hfirst [Hbefore Hfind]]]]]].
  exists before, first, after.
  split; [exact Hsplit|]. split; [exact Hfirst|]. split; [exact Hbefore|].
  split.
  - intros Hnd. apply (NoDup_ID_same (tickets s)); [exact Hnd | | exact Hin | congruence].
    rewrite Hsplit. apply in_or_app. right. left. reflexivity.
  - intros Hrange. split.
    + apply Stub_getTicket_found; [|exact Hfind].
      rewrite <- Hfirst. unfold inRange in Hrange.
      apply andb_true_iff in Hrange as [Hr _]. exact Hr.
    + intros Hvalid. apply getTicketFromResponse_marshalTicket; assumption.
Qed.

Lemma getTicket_round_trip_witness :
  let t1 := {| ID := 1; Status := STATUS_ACCEPTED; Items := Some ["burger"; "fries"] |} in
  let t2 := {| ID := 2; Status := STATUS_PENDING; Items := Some ["pizza"; "water"] |} in
  let s := {| tickets := [t1; t2] |} in
  In t2 (tickets s) /\ ID t2 = 2
  /\ NoDup (map ID (tickets s))
  /\ inRange t2 = true
  /\ validItems t2 = true
  /\ ServeHTTP {| store := s |} NewRecorder (newGetTicketRequest 2)
     = ({| store := s |},
        {| Code := http.StatusOK; wroteHeader := true; Body := [marshalTicket t2] |})
  /\ getTicketFromResponse [marshalTicket t2] = Ok t2.
Proof.
  intros t1 t2 s.
  assert (Hin : In t2 (tickets s)) by (right; left; reflexivity).
  assert (Hnd : NoDup (map ID (tickets s))).
  { repeat constructor; cbn; intuition discriminate. }
  split; [exact Hin|]. split; [reflexivity|]. split; [exact Hnd|].
  split; [reflexivity|]. split; [reflexivity|].
  destruct (getTicket_round_trip s 2 t2 Hin eq_refl)
    as [before [first [after [_ [_ [_ [Hsame Hread]]]]]]].
  rewrite (Hsame Hnd) in Hread.
  destruct (Hread eq_refl) as [Hserve Hdecode].
  split; [exact Hserve | exact (Hdecode eq_refl)].
Defined.

(** What the amended C3 asks of the ticket holds of every ticket the handler
    itself stores: its items went through the decoder, its status is
    PENDING. *)
Lemma created_ticket_round_trips (body : option json.Value) (t : Ticket) (n : Z) :
  getTicketFromRequestBody body = Ok t -> inInt n = true ->
  getTicketFromResponse
    [marshalTicket {| ID := n; Status := STATUS_PENDING; Items := Items t |}]
  = Ok {| ID := n; Status := STATUS_PENDING; Items := Items t |}.
Proof.
  intros Ht Hn. apply getTicketFromResponse_marshalTicket.
  - unfold inRange. cbn [ID Status]. rewrite Hn. reflexivity.
  - exact (getTicketFromRequestBody_validItems body t Ht).
Qed.

(** C4 (the code at the failing input): with the store of the binary, GET
    [/ticket/{id}] answers 200 with the zero ticket for every ID, although
    the store holds no ticket at all: [InMemoryKitchenStore.GetTicketByID]
    never fails. *)
Theorem InMemoryKitchenStore_finds_every_ID (id : Z) :
  inInt id = true ->
  ServeHTTP {| store := mkInMemoryKitchenStore |} NewRecorder (newGetTicketRequest id)
  = ({| store := mkInMemoryKitchenStore |},
     {| Code := http.StatusOK; wroteHeader := true;
        Body := [marshalTicket zeroTicket] |}).
Proof.
  intros Hid. rewrite ServeHTTP_GET by reflexivity.
  rewrite (getTicket_parsed _ _ _ id) by (apply newGetTicketRequest_parsed; exact Hid).
  reflexivity.
Qed.

Lemma InMemoryKitchenStore_finds_every_ID_witness :
  inInt 7 = true
  /\ ServeHTTP {| store := mkInMemoryKitchenStore |} NewRecorder (newGetTicketRequest 7)
     = ({| store := mkInMemoryKitchenStore |},
        {| Code := 200; wroteHeader := true;
           Body := [json.Obj [ ("ID", json.Num (json.IntLit 0));
                               ("Status", json.Num (json.IntLit 0));
                               ("Items", json.Null) ]] |}).
Proof.
  split; [reflexivity|].
  exact (InMemoryKitchenStore_finds_every_ID 7 eq_refl).
Defined.

(** C8 (the code at the failing input): with the store of the binary every
    store operation returns 123, so the IDs of successive operations do not
    increase. *)
Theorem InMemoryKitchenStore_repeats_ID (ts : list Ticket) :
  storeAll mkInMemoryKitchenStore ts
  = (mkInMemoryKitchenStore, map (fun _ => Ok 123) ts).
Proof.
  induction ts as [|t ts IH]; [reflexivity|].
  cbn [storeAll StoreTicket InMemoryKitchenStore_KitchenStore
       InMemoryKitchenStore_StoreTicket map].
  cbn [storeAll StoreTicket InMemoryKitchenStore_KitchenStore] in IH.
  rewrite IH. reflexivity.
Qed.

(** With the store of the tests, started empty, C8 holds: after any sequence
    of store operations the stored IDs are pairwise distinct, and the
    operations returned [0], [1], [2], ... in this order. *)
Lemma Stub_IDs_distinct_and_increasing (ts : list Ticket) :
  NoDup (map ID (tickets (fst (storeAll emptyStub ts))))
  /\ snd (storeAll emptyStub ts)
     = map (fun i => Ok (Z.of_nat i)) (seq 0 (List.length ts)).
Proof.
  destruct (Stub_storeAll ts emptyStub numbered_empty) as [Hn Hr].
  split; [apply numbered_NoDup; exact Hn | exact Hr].
Qed.

(** * Stores filled through the handler *)

Section ServedStores.

Lemma wellKept_empty : wellKept emptyStub.
Proof. split; [exact numbered_empty | constructor]. Qed.

(** No request breaks [wellKept]. *)
Lemma ServeHTTP_wellKept (s : StubKitchenStore) (w : ResponseRecorder) (r : http.Request) :
  wellKept s -> wellKept (store (fst (ServeHTTP {| store := s |} w r))).
Proof.
  intros [Hn Hall]. unfold ServeHTTP.
  destruct (String.eqb (http.Method r) http.MethodGet).
  - unfold getTicket.
    destruct (strconv.Atoi _) as [id|e]; [|split; assumption].
    cbn [GetTicketByID StubKitchenStore_KitchenStore store].
    unfold StubKitchenStore_GetTicketByID.
    destruct (findTicket (tickets s) id); split; assumption.
  - destruct (String.eqb (http.Method r) http.MethodPost); [|split; assumption].
    unfold createTicket.
    destruct (getTicketFromRequestBody (http.Body r)) as [t|e] eqn:Et;
      [|split; assumption].
    cbn [StoreTicket StubKitchenStore_KitchenStore StubKitchenStore_StoreTicket
         store fst ID Status Items].
    split.
    + exact (numbered_StoreTicket s
               {| ID := ID t; Status := STATUS_PENDING; Items := Items t |} Hn).
    + cbn [tickets]. apply Forall_app. split; [exact Hall|].
      constructor; [|constructor]. split; [reflexivity|].
      exact (getTicketFromRequestBody_validItems _ t Et).
Qed.

Lemma serveAll_wellKept (rs : list http.Request) :
  forall s, wellKept s -> wellKept (store (fst (serveAll {| store := s |} rs))).
Proof.
  induction rs as [|r rs IH]; intros s Hs; [exact Hs|].
  cbn [serveAll].
  pose proof (ServeHTTP_wellKept s NewRecorder r Hs) as H1.
  destruct (ServeHTTP {| store := s |} NewRecorder r) as [[s1] w].
  cbn [fst store] in H1. specialize (IH s1 H1).
  destruct (serveAll {| store := s1 |} rs) as [k2 ws]. exact IH.
Qed.

(** In a store filled through the handler, the stored IDs are pairwise
    distinct and every stored ticket is read back by GET: 200 and a body
    that decodes to the ticket. *)
Lemma served_store_round_trip (rs : list http.Request) (id : Z) (t : Ticket) :
  let s := store (fst (serveAll {| store := emptyStub |} rs)) in
  findTicket (tickets s) id = Some t ->
  inInt id = true ->
  NoDup (map ID (tickets s))
  /\ ServeHTTP {| store := s |} NewRecorder (newGetTicketRequest id)
     = ({| store := s |},
        {| Code := http.StatusOK; wroteHeader := true; Body := [marshalTicket t] |})
  /\ getTicketFromResponse [marshalTicket t] = Ok t.
Proof.
  intros s Hfind Hid.
  destruct (serveAll_wellKept rs emptyStub wellKept_empty) as [Hn Hall].
  fold s in Hn, Hall.
  destruct (findTicket_Some _ _ _ Hfind) as [Hin Heq].
  rewrite Forall_forall in Hall. destruct (Hall t Hin) as [Hst Hv].
  split; [exact (numbered_NoDup s Hn)|].
  split; [exact (Stub_getTicket_found s id t Hid Hfind)|].
  apply getTicketFromResponse_marshalTicket; [|exact Hv].
  unfold inRange. rewrite Heq, Hid, Hst. reflexivity.
Qed.

End ServedStores.

(** * The tests of the repository, replayed *)

Section Tests.

Example TestGETTicket_returns_OK_on_valid_ticket_ID :
  Code (answer seeded (newGetTicketRequest 1)) = http.StatusOK.
Proof. reflexivity. Qed.

Example TestGETTicket_returns_Bad_Request_on_invalid_ticket_ID :
  Code (answer seeded {| http.Method := http.MethodGet;
                         http.Path := "/ticket/asdff";
                         http.Body := None |})
  = http.StatusBadRequest.
Proof. reflexivity. Qed.

Example TestGETTicket_returns_ticket_in_JSON_format :
  getTicketFromResponse (Body (answer seeded (newGetTicketRequest 1)))
  = Ok (nth 0 (tickets seeded) zeroTicket)
  /\ getTicketFromResponse (Body (answer seeded (newGetTicketRequest 2)))
     = Ok (nth 1 (tickets seeded) zeroTicket).
Proof. split; reflexivity. Qed.

Example TestGETTicket_returns_Not_Found_on_nonexistant_ticket_ID :
  Code (answer seeded (newGetTicketRequest 3)) = http.StatusNotFound.
Proof. reflexivity. Qed.

(** The four subtests of [TestCreateTicket] share one store. *)
Example TestCreateTicket :
  let burger := {| ID := 0; Status := 0; Items := Some ["burger"; "fries"] |} in
  let pizza := {| ID := 0; Status := 0; Items := Some ["pizza"; "water"] |} in
  let invalid := Some (json.Obj [("text", json.Str "this is an invalid ticket JSON")]) in
  let '(k, ws) :=
    serveAll {| store := emptyStub |}
      [ newCreateTicketRequest burger;
        newPostRequest "/ticket/" invalid;
        newCreateTicketRequest burger;
        newCreateTicketRequest pizza ] in
  map Code ws = [202; 400; 202; 202]
  /\ map Body ws
     = [ [json.Obj [("ID", json.Num (json.IntLit 0))]];
         [];
         [json.Obj [("ID", json.Num (json.IntLit 1))]];
         [json.Obj [("ID", json.Num (json.IntLit 2))]] ]
  /\ GetTicketByID (store k) 2
     = (store k, Ok {| ID := 2; Status := STATUS_PENDING; Items := Some ["pizza"; "water"] |}).
Proof. repeat split. Qed.

End Tests.

(** * Further properties of the code *)

(** The document the create path answers with, written out. *)
Lemma idDocument_written_out (n : Z) :
  idDocument n = json.Obj [("ID", json.Num (json.IntLit n))].
Proof. reflexivity. Qed.

(** ** The get path: which paths are read as an ID *)

Section GetPath.

Import strconv.

Lemma parseDigits_not_allDigits (s : string) :
  forall acc, allDigits s = false -> parseDigits acc s = None.
Proof.
  induction s as [|c r IH]; intros acc H; [discriminate H|].
  cbn [allDigits] in H. cbn [parseDigits]. unfold isDigit in H.
  destruct (digit c) as [d|]; [|reflexivity].
  cbn [andb] in H. exact (IH _ H).
Qed.

Lemma Atoi_refuses (s : string) :
  unsigned s = "" \/ allDigits (unsigned s) = false -> Atoi s = Err ErrSyntax.
Proof.
  intros H.
  assert (Hbody : forall body,
             body = "" \/ allDigits body = false ->
             match body with
             | "" => Err ErrSyntax
             | _ => match parseDigits 0 body with
                    | None => Err ErrSyntax
                    | Some n => if inInt (- n) then Ok (- n) else Err ErrRange
                    end
             end = Err ErrSyntax
             /\ match body with
                | "" => Err ErrSyntax
                | _ => match parseDigits 0 body with
                       | None => Err ErrSyntax
                       | Some n => if inInt n then Ok n else Err ErrRange
                       end
                end = Err ErrSyntax).
  { intros body [-> | Hd]; [split; reflexivity|].
    rewrite (parseDigits_not_allDigits body 0 Hd).
    destruct body; split; reflexivity. }
  destruct s as [|c r]; [reflexivity|].
  destruct c as [[] [] [] [] [] [] [] []];
    first [ exact (proj1 (Hbody _ H)) | exact (proj2 (Hbody _ H)) ].
Qed.

Lemma Atoi_Ok_inInt (s : string) (z : Z) : Atoi s = Ok z -> inInt z = true.
Proof.
  unfold Atoi.
  destruct (match s with
            | String "-"%char r => (true, r)
            | String "+"%char r => (false, r)
            | _ => (false, s)
            end) as [neg body].
  destruct body as [|c r]; [discriminate|].
  destruct (parseDigits 0 (String c r)) as [n|]; [|discriminate].
  destruct (inInt (if neg then - n else n)) eqn:E; [|discriminate].
  intros Heq. injection Heq as <-. exact E.
Qed.

(** What [Atoi] makes of what [Itoa] prints, within the range of [int] and
    outside. *)
Lemma Atoi_Itoa_any (z : Z) :
  Atoi (Itoa z) = if inInt z then Ok z else Err ErrRange.
Proof.
  unfold Itoa. destruct (z <? 0) eqn:E.
  - apply Z.ltb_lt in E.
    assert (Hn : 0 <= - z) by lia.
    destruct (parseDigits_digits _ (- z) "" (conj Hn (log2_fuel (- z) Hn)))
      as [k [_ Hparse]].
    pose proof (Itoa_digits_startsWithDigit (Z.to_nat (Z.log2 (- z))) (- z) Hn) as Hs.
    unfold Atoi. destruct (digits _ (- z) "") as [|c r] eqn:Ed; [destruct Hs|].
    rewrite Hparse. cbn [parseDigits]. rewrite Z.mul_0_l, Z.add_0_l, Z.opp_involutive.
    reflexivity.
  - apply Z.ltb_ge in E.
    destruct (parseDigits_digits _ z "" (conj E (log2_fuel z E))) as [k [_ Hparse]].
    rewrite Atoi_unsigned by (apply Itoa_digits_startsWithDigit; exact E).
    rewrite Hparse. cbn [parseDigits]. rewrite Z.mul_0_l, Z.add_0_l.
    reflexivity.
Qed.

Lemma parseDigits_zeros (n : nat) (s : string) :
  parseDigits 0 (zeros n ++ s) = parseDigits 0 s.
Proof. induction n as [|n IH]; [reflexivity | exact IH]. Qed.

Lemma zeros_startsWithDigit (n : nat) (s : string) :
  startsWithDigit s -> startsWithDigit (zeros n ++ s).
Proof.
  intros Hs. destruct n as [|n]; [exact Hs|]. exists 0. reflexivity.
Qed.

Lemma Itoa_nonneg_startsWithDigit (z : Z) : 0 <= z -> startsWithDigit (Itoa z).
Proof.
  intros Hz. unfold Itoa.
  destruct (z <? 0) eqn:E; [apply Z.ltb_lt in E; lia|].
  apply Itoa_digits_startsWithDigit. exact Hz.
Qed.

Lemma parseDigits_Itoa_nonneg (z : Z) : 0 <= z -> parseDigits 0 (Itoa z) = Some z.
Proof.
  intros Hz. unfold Itoa.
  destruct (z <? 0) eqn:E; [apply Z.ltb_lt in E; lia|].
  destruct (parseDigits_digits _ z "" (conj Hz (log2_fuel z Hz))) as [k [_ Hparse]].
  rewrite Hparse. cbn [parseDigits]. f_equal; lia.
Qed.

(** Leading zeros and a plus sign do not change what is read. *)
Lemma Atoi_padded (plus : bool) (n : nat) (z : Z) :
  0 <= z -> inInt z = true ->
  Atoi ((if plus then "+" else "") ++ zeros n ++ Itoa z) = Ok z.
Proof.
  intros Hz Hin.
  pose proof (zeros_startsWithDigit n (Itoa z) (Itoa_nonneg_startsWithDigit z Hz)) as Hs.
  pose proof (parseDigits_zeros n (Itoa z)) as Hp.
  rewrite (parseDigits_Itoa_nonneg z Hz) in Hp.
  destruct plus.
  - change ("+" ++ zeros n ++ Itoa z) with (String "+"%char (zeros n ++ Itoa z)).
    unfold Atoi. destruct (zeros n ++ Itoa z) as [|c r]; [destruct Hs|].
    rewrite Hp, Hin. reflexivity.
  - change ("" ++ zeros n ++ Itoa z) with (zeros n ++ Itoa z).
    rewrite (Atoi_unsigned _ Hs), Hp, Hin. reflexivity.
Qed.

Lemma CutPrefix_Some (prefix : string) :
  forall s rest, strings.CutPrefix s prefix = Some rest -> s = prefix ++ rest.
Proof.
  induction prefix as [|p prefix IH]; intros s rest H.
  - cbn in H. injection H as ->. reflexivity.
  - cbn [strings.CutPrefix] in H. destruct s as [|c s]; [discriminate H|].
    destruct (Ascii.eqb c p) eqn:E; [|discriminate H].
    apply Ascii.eqb_eq in E. subst c. cbn [append]. f_equal. exact (IH _ _ H).
Qed.

End GetPath.

Lemma getTicket_unparsed {S : Type} `{KitchenStore S}
    (k : KitchenServer S) (w : ResponseRecorder) (r : http.Request) (e : error) :
  strconv.Atoi (strings.TrimPrefix (http.Path r) "/ticket/") = Err e ->
  getTicket k w r = (k, WriteHeader w http.StatusBadRequest).
Proof. unfold getTicket. intros ->. reflexivity. Qed.

(** A GET whose ID part, the path after [/ticket/], is empty, is a bare sign,
    or has a character that is not a decimal digit after the optional sign,
    is answered 400 with no body, and the store is not asked: the server is
    unchanged and a store that records its calls records none. *)
Theorem GET_malformed_id_is_400
    {S : Type} `{KitchenStore S} (k : KitchenServer S) (r : http.Request) :
  http.Method r = http.MethodGet ->
  unsigned (strings.TrimPrefix (http.Path r) "/ticket/") = ""
  \/ allDigits (unsigned (strings.TrimPrefix (http.Path r) "/ticket/")) = false ->
  ServeHTTP k NewRecorder r
  = (k, {| Code := http.StatusBadRequest; wroteHeader := true; Body := [] |})
  /\ calls (store (fst (ServeHTTP {| store := watch (store k) |} NewRecorder r))) = [].
Proof.
  intros Hget Hid. apply Atoi_refuses in Hid. split.
  - rewrite ServeHTTP_GET by exact Hget.
    rewrite (getTicket_unparsed k NewRecorder r _ Hid). reflexivity.
  - rewrite ServeHTTP_GET by exact Hget.
    rewrite (getTicket_unparsed _ NewRecorder r _ Hid). reflexivity.
Qed.

Lemma GET_malformed_id_is_400_witness :
  let r := {| http.Method := http.MethodGet;
              http.Path := "/ticket/12a";
              http.Body := None |} in
  let k := {| store := seeded |} in
  ServeHTTP k NewRecorder r
  = (k, {| Code := http.StatusBadRequest; wroteHeader := true; Body := [] |})
  /\ calls (store (fst (ServeHTTP {| store := watch (store k) |} NewRecorder r))) = [].
Proof.
  intros r k.
  exact (GET_malformed_id_is_400 k r eq_refl (or_intror eq_refl)).
Defined.

(** A GET for a decimal number that does not fit a Go [int] is answered 400,
    not 404, and the store is not asked. *)
Theorem GET_out_of_range_id_is_400
    {S : Type} `{KitchenStore S} (k : KitchenServer S) (z : Z) :
  inInt z = false ->
  ServeHTTP k NewRecorder
    {| http.Method := http.MethodGet;
       http.Path := "/ticket/" ++ strconv.Itoa z;
       http.Body := None |}
  = (k, {| Code := http.StatusBadRequest; wroteHeader := true; Body := [] |}).
Proof.
  intros Hz. rewrite ServeHTTP_GET by reflexivity.
  rewrite (getTicket_unparsed k NewRecorder _ ErrRange).
  - reflexivity.
  - cbn [http.Path]. rewrite TrimPrefix_ticket, Atoi_Itoa_any, Hz. reflexivity.
Qed.

Lemma GET_out_of_range_id_is_400_witness :
  inInt 9223372036854775808 = false
  /\ ServeHTTP {| store := seeded |} NewRecorder
       {| http.Method := http.MethodGet;
          http.Path := "/ticket/9223372036854775808";
          http.Body := None |}
     = ({| store := seeded |},
        {| Code := http.StatusBadRequest; wroteHeader := true; Body := [] |}).
Proof.
  split; [reflexivity|].
  exact (GET_out_of_range_id_is_400 {| store := seeded |} 9223372036854775808 eq_refl).
Defined.

(** A GET for a path that starts with a slash and is not under [/ticket/] is
    answered 400 with no body: the whole path is taken for the ID. *)
Theorem GET_outside_ticket_prefix_is_400
    {S : Type} `{KitchenStore S} (k : KitchenServer S)
    (rest : string) (body : option json.Value) :
  (forall s, String "/"%char rest <> "/ticket/" ++ s) ->
  ServeHTTP k NewRecorder
    {| http.Method := http.MethodGet;
       http.Path := String "/"%char rest;
       http.Body := body |}
  = (k, {| Code := http.StatusBadRequest; wroteHeader := true; Body := [] |}).
Proof.
  intros Hout. rewrite ServeHTTP_GET by reflexivity.
  rewrite (getTicket_unparsed k NewRecorder _ ErrSyntax); [reflexivity|].
  cbn [http.Path]. unfold strings.TrimPrefix.
  destruct (strings.CutPrefix (String "/"%char rest) "/ticket/") as [s|] eqn:E.
  - exfalso. exact (Hout s (CutPrefix_Some _ _ _ E)).
  - apply Atoi_refuses. right. reflexivity.
Qed.

Lemma GET_outside_ticket_prefix_is_400_witness :
  (forall s, "/tickets/1" <> "/ticket/" ++ s)
  /\ ServeHTTP {| store := seeded |} NewRecorder
       {| http.Method := http.MethodGet;
          http.Path := "/tickets/1";
          http.Body := None |}
     = ({| store := seeded |},
        {| Code := http.StatusBadRequest; wroteHeader := true; Body := [] |}).
Proof.
  assert (Hout : forall s, "/tickets/1" <> "/ticket/" ++ s).
  { intros s Heq. cbn in Heq. discriminate Heq. }
  split; [exact Hout|].
  exact (GET_outside_ticket_prefix_is_400 {| store := seeded |} "tickets/1" None Hout).
Defined.

(** A plus sign and leading zeros in front of the ID change nothing:
    [/ticket/+007] is served as [/ticket/7], whatever the store and the
    body of the request. *)
Theorem GET_reads_sign_and_leading_zeros
    {S : Type} `{KitchenStore S} (k : KitchenServer S) (w : ResponseRecorder)
    (plus : bool) (n : nat) (id : Z) (body : option json.Value) :
  0 <= id -> inInt id = true ->
  ServeHTTP k w
    {| http.Method := http.MethodGet;
       http.Path := "/ticket/" ++ (if plus then "+" else "") ++ zeros n ++ strconv.Itoa id;
       http.Body := body |}
  = ServeHTTP k w (newGetTicketRequest id).
Proof.
  intros Hid Hin. rewrite !ServeHTTP_GET by reflexivity.
  rewrite (getTicket_parsed k w (newGetTicketRequest id) id)
    by (apply newGetTicketRequest_parsed; exact Hin).
  rewrite (getTicket_parsed k w _ id); [reflexivity|].
  cbn [http.Path]. rewrite TrimPrefix_ticket. apply Atoi_padded; assumption.
Qed.

Lemma GET_reads_sign_and_leading_zeros_witness :
  0 <= 2 /\ inInt 2 = true
  /\ ServeHTTP {| store := seeded |} NewRecorder
       {| http.Method := http.MethodGet;
          http.Path := "/ticket/+002";
          http.Body := None |}
     = ServeHTTP {| store := seeded |} NewRecorder (newGetTicketRequest 2).
Proof.
  split; [lia|]. split; [reflexivity|].
  exact (GET_reads_sign_and_leading_zeros {| store := seeded |} NewRecorder
           true 2%nat 2 None ltac:(lia) eq_refl).
Defined.

(** The request [newGetTicketRequest] builds for an [int] is never answered
    400: the store is asked once, for that very ID, and the answer is 200
    with the ticket it returns or 404 when it fails. *)
Theorem newGetTicketRequest_reaches_store
    {S : Type} `{KitchenStore S} (s : S) (id : Z) :
  inInt id = true ->
  ServeHTTP {| store := watch s |} NewRecorder (newGetTicketRequest id)
  = ({| store := {| inner := fst (GetTicketByID s id);
                    calls := [CallGetTicketByID id] |} |},
     match snd (GetTicketByID s id) with
     | Ok ticket =>
       {| Code := http.StatusOK; wroteHeader := true; Body := [marshalTicket ticket] |}
     | Err _ =>
       {| Code := http.StatusNotFound; wroteHeader := true; Body := [] |}
     end).
Proof.
  intros Hid. rewrite ServeHTTP_GET by reflexivity.
  rewrite (getTicket_parsed _ _ _ id) by (apply newGetTicketRequest_parsed; exact Hid).
  cbn [GetTicketByID Spy_KitchenStore store watch inner calls app].
  destruct (GetTicketByID s id) as [s' [ticket|e]]; reflexivity.
Qed.

Lemma newGetTicketRequest_reaches_store_witness :
  inInt 3 = true
  /\ ServeHTTP {| store := watch seeded |} NewRecorder (newGetTicketRequest 3)
     = ({| store := {| inner := seeded; calls := [CallGetTicketByID 3] |} |},
        {| Code := http.StatusNotFound; wroteHeader := true; Body := [] |}).
Proof.
  split; [reflexivity|].
  exact (newGetTicketRequest_reaches_store seeded 3 eq_refl).
Defined.

(** ** The create path *)

(** A failure of the store on creation is answered 400 with no body, as a
    refused body is; the store is left as the failed operation left it. *)
Theorem createTicket_store_failure_is_400
    {S : Type} `{KitchenStore S} (k : KitchenServer S) (path : string)
    (body : option json.Value) (t : Ticket) (s' : S) (e : error) :
  getTicketFromRequestBody body = Ok t ->
  StoreTicket (store k)
    {| ID := ID t; Status := STATUS_PENDING; Items := Items t |} = (s', Err e) ->
  ServeHTTP k NewRecorder (newPostRequest path body)
  = ({| store := s' |},
     {| Code := http.StatusBadRequest; wroteHeader := true; Body := [] |}).
Proof.
  intros Ht Hstore. rewrite ServeHTTP_POST by reflexivity.
  rewrite (createTicket_taken _ _ _ t) by exact Ht.
  rewrite Hstore. reflexivity.
Qed.

Lemma createTicket_store_failure_is_400_witness :
  let body := Some (json.Obj [("Items", json.Arr [json.Str "burger"])]) in
  let t := {| ID := 0; Status := 0; Items := Some ["burger"] |} in
  getTicketFromRequestBody body = Ok t
  /\ ServeHTTP {| store := mkRefusingStore |} NewRecorder (newPostRequest "/ticket/" body)
     = ({| store := mkRefusingStore |},
        {| Code := http.StatusBadRequest; wroteHeader := true; Body := [] |}).
Proof.
  intros body t. split; [reflexivity|].
  exact (createTicket_store_failure_is_400 {| store := mkRefusingStore |} "/ticket/"
           body t mkRefusingStore (Errorf "store is down") eq_refl eq_refl).
Defined.

(** With the store of the tests a POST is answered 202, and one ticket is
    added, exactly when the body is an object whose members all name a field
    of [Ticket] and carry a value of its type and whose last [Items] is an
    array; every other body is answered 400 and the store is unchanged. *)
Theorem POST_accepted_iff_body_fits
    (s : StubKitchenStore) (path : string) (body : option json.Value) :
  let '(k', w) := ServeHTTP {| store := s |} NewRecorder (newPostRequest path body) in
  if acceptableBody body
  then Code w = http.StatusAccepted
       /\ Body w = [idDocument (Z.of_nat (List.length (tickets s)))]
       /\ List.length (tickets (store k')) = Datatypes.S (List.length (tickets s))
  else k' = {| store := s |}
       /\ w = {| Code := http.StatusBadRequest; wroteHeader := true; Body := [] |}.
Proof.
  rewrite ServeHTTP_POST by reflexivity.
  destruct (acceptableBody body) eqn:E.
  - destruct (getTicketFromRequestBody_accepts body E) as [t Ht].
    rewrite (createTicket_taken _ _ _ t) by exact Ht.
    cbn [StoreTicket StubKitchenStore_KitchenStore StubKitchenStore_StoreTicket
         store tickets ID].
    repeat split. rewrite length_app. cbn [List.length]. lia.
  - destruct (getTicketFromRequestBody_rejects body E) as [e He].
    rewrite (createTicket_refused _ NewRecorder (newPostRequest path body) e He).
    split; reflexivity.
Qed.

Section SentTickets.

Import json.

Lemma ToValid_idempotent (s : string) :
  utf8.ToValid (utf8.ToValid s) = utf8.ToValid s.
Proof. apply ToValid_fixes_valid. apply ToValid_is_valid. Qed.

Lemma storeElems_sent (field : string) (l : list string) :
  forall cur,
    storeElems field (map (fun s => Str (utf8.ToValid s)) l) cur
    = (map utf8.ToValid l, None).
Proof.
  induction l as [|s l IH]; intros cur; [reflexivity|].
  cbn [map storeElems storeString]. rewrite (IH (tl cur)), ToValid_idempotent.
  reflexivity.
Qed.

Lemma unmarshal_sent_ticket (strict : bool) (t : Ticket) :
  inRange t = true ->
  unmarshalTicket strict (marshalTicket t) zeroTicket = (coerced t, None).
Proof.
  destruct t as [id st items]. unfold inRange, coerced. cbn [ID Status Items].
  intros Hr. apply andb_true_iff in Hr as [Hid Hst].
  unfold marshalTicket, unmarshalTicket. cbn [ID Status Items fold_left].
  rewrite (decodeMember_ID_int strict _ id Hid).
  rewrite (decodeMember_Status_int strict _ st Hst).
  unfold decodeMember.
  change (ticketField "Items") with (Some FieldItems).
  destruct items as [l|]; cbn [storeStrings ID Status Items]; [|reflexivity].
  rewrite storeElems_sent. reflexivity.
Qed.

End SentTickets.

(** A ticket sent with [newCreateTicketRequest]: refused with 400 when its
    [Items] is nil; otherwise answered 202 with the next ID, and what is
    stored has that ID, the status PENDING and the items of the ticket, each
    coerced to valid UTF-8, whatever ID and status the ticket had. *)
Theorem newCreateTicketRequest_is_stored_pending
    (s : StubKitchenStore) (ticket : Ticket) :
  inRange ticket = true ->
  ServeHTTP {| store := s |} NewRecorder (newCreateTicketRequest ticket)
  = match Items ticket with
    | None =>
      ({| store := s |},
       {| Code := http.StatusBadRequest; wroteHeader := true; Body := [] |})
    | Some l =>
      let n := Z.of_nat (List.length (tickets s)) in
      ({| store :=
            {| tickets :=
                 tickets s
                 ++ [ {| ID := n;
                         Status := STATUS_PENDING;
                         Items := Some (map utf8.ToValid l) |} ] |} |},
       {| Code := http.StatusAccepted; wroteHeader := true;
          Body := [idDocument n] |})
    end.
Proof.
  intros Hr. rewrite ServeHTTP_POST by reflexivity.
  unfold createTicket, getTicketFromRequestBody, Decode, NewDecoder,
    DisallowUnknownFields.
  cbn [http.Body newCreateTicketRequest input disallowUnknownFields].
  rewrite (unmarshal_sent_ticket true ticket Hr).
  unfold isTicketValid, coerced. cbn [Items ID Status].
  destruct (Items ticket) as [l|]; reflexivity.
Qed.

Lemma newCreateTicketRequest_is_stored_pending_witness :
  let ticket := {| ID := 41; Status := STATUS_COMPLETED;
                   Items := Some ["pizza"; String (ascii_of_N 255) ""] |} in
  inRange ticket = true
  /\ ServeHTTP {| store := seeded |} NewRecorder (newCreateTicketRequest ticket)
     = ({| store :=
             {| tickets :=
                  tickets seeded
                  ++ [ {| ID := 2; Status := STATUS_PENDING;
                          Items := Some ["pizza"; utf8.RuneError] |} ] |} |},
        {| Code := 202; wroteHeader := true; Body := [idDocument 2] |}).
Proof.
  intros ticket. split; [reflexivity|].
  exact (newCreateTicketRequest_is_stored_pending seeded ticket eq_refl).
Defined.

(** ** Every answer of the handler, whatever the store *)

(** The answers the handler gives on a fresh recorder: to a GET, 200 with
    one ticket document, or 400 or 404 with no body; to a POST, 202 with one
    [{"ID": n}] document, or 400 with no body; to any other method, nothing.
    No other status is ever written and no error carries a body. *)
Theorem ServeHTTP_answers
    {S : Type} `{KitchenStore S} (k : KitchenServer S) (r : http.Request) :
  let w := snd (ServeHTTP k NewRecorder r) in
  let bare code := {| Code := code; wroteHeader := true; Body := [] |} in
  (http.Method r = http.MethodGet
   /\ ((exists ticket,
          w = {| Code := http.StatusOK; wroteHeader := true;
                 Body := [marshalTicket ticket] |})
       \/ w = bare http.StatusBadRequest
       \/ w = bare http.StatusNotFound))
  \/ (http.Method r = http.MethodPost
      /\ ((exists n,
             w = {| Code := http.StatusAccepted; wroteHeader := true;
                    Body := [idDocument n] |})
          \/ w = bare http.StatusBadRequest))
  \/ (http.Method r <> http.MethodGet /\ http.Method r <> http.MethodPost
      /\ w = NewRecorder).
Proof.
  intros w bare. subst w. unfold ServeHTTP.
  destruct (String.eqb (http.Method r) http.MethodGet) eqn:Eget.
  - left. apply String.eqb_eq in Eget. split; [exact Eget|].
    unfold getTicket.
    destruct (strconv.Atoi _) as [id|e]; [|right; left; reflexivity].
    destruct (GetTicketByID (store k) id) as [s' [ticket|e]].
    + left. exists ticket. reflexivity.
    + right. right. reflexivity.
  - apply String.eqb_neq in Eget.
    destruct (String.eqb (http.Method r) http.MethodPost) eqn:Epost.
    + right. left. apply String.eqb_eq in Epost. split; [exact Epost|].
      unfold createTicket.
      destruct (getTicketFromRequestBody (http.Body r)) as [t|e];
        [|right; reflexivity].
      destruct (StoreTicket (store k) _) as [s' [n|e]].
      * left. exists n. reflexivity.
      * right. reflexivity.
    + right. right. apply String.eqb_neq in Epost. repeat split; assumption.
Qed.

(** ** What reaches the store *)

(** One request on a store that records its calls adds at most one call to
    the record: a fetch of an ID within the range of [int] for a GET, a store
    of a PENDING ticket that passed validation for a POST. *)
Lemma ServeHTTP_records {S : Type} `{KitchenStore S}
    (sp : Spy S) (w : ResponseRecorder) (r : http.Request) :
  exists new : list Call,
    calls (store (fst (ServeHTTP {| store := sp |} w r))) = (calls sp ++ new)%list
    /\ (List.length new <= 1)%nat
    /\ Forall handlerCall new
    /\ (http.Method r = http.MethodGet -> forallb isFetch new = true)
    /\ (http.Method r = http.MethodPost -> forallb (fun c => negb (isFetch c)) new = true).
Proof.
  unfold ServeHTTP.
  destruct (String.eqb (http.Method r) http.MethodGet) eqn:Eget.
  - apply String.eqb_eq in Eget. unfold getTicket.
    destruct (strconv.Atoi _) as [id|e] eqn:Eid.
    + exists [CallGetTicketByID id].
      cbn [GetTicketByID Spy_KitchenStore store].
      destruct (GetTicketByID (inner sp) id) as [s' [ticket|e]];
        cbn [fst store calls];
        (split; [reflexivity|]; split; [cbn; lia|]; split;
         [constructor; [exact (Atoi_Ok_inInt _ _ Eid) | constructor]|];
         split; [reflexivity|]; intros Hp; rewrite Eget in Hp; discriminate Hp).
    + exists []. cbn [fst store]. rewrite app_nil_r.
      split; [reflexivity|]. split; [cbn; lia|]. split; [constructor|].
      split; reflexivity.
  - apply String.eqb_neq in Eget.
    destruct (String.eqb (http.Method r) http.MethodPost) eqn:Epost.
    + unfold createTicket.
      destruct (getTicketFromRequestBody (http.Body r)) as [t|e] eqn:Et.
      * exists [CallStoreTicket
                  {| ID := ID t; Status := STATUS_PENDING; Items := Items t |}].
        cbn [StoreTicket Spy_KitchenStore store].
        destruct (StoreTicket (inner sp) _) as [s' [n|e]];
          cbn [fst store calls];
          (split; [reflexivity|]; split; [cbn; lia|]; split;
           [constructor; [|constructor]; cbn [handlerCall Status];
            split; [reflexivity|]; split;
            [exact (getTicketFromRequestBody_valid _ t Et)
            |exact (getTicketFromRequestBody_validItems _ t Et)]|];
           split; [intros Hg; contradiction | reflexivity]).
      * exists []. cbn [fst store]. rewrite app_nil_r.
        split; [reflexivity|]. split; [cbn; lia|]. split; [constructor|].
        split; reflexivity.
    + exists []. cbn [fst store]. rewrite app_nil_r.
      split; [reflexivity|]. split; [cbn; lia|]. split; [constructor|].
      split; reflexivity.
Qed.

(** A GET makes at most one call to the store and never a store operation;
    a POST makes at most one call and never a fetch. *)
Theorem ServeHTTP_calls_by_method
    {S : Type} `{KitchenStore S} (s : S) (r : http.Request) :
  let made := calls (store (fst (ServeHTTP {| store := watch s |} NewRecorder r))) in
  (List.length made <= 1)%nat
  /\ (http.Method r = http.MethodGet -> forallb isFetch made = true)
  /\ (http.Method r = http.MethodPost ->
      forallb (fun c => negb (isFetch c)) made = true).
Proof.
  intros made. subst made.
  destruct (ServeHTTP_records (watch s) NewRecorder r)
    as [new [Hcalls [Hlen [_ [Hget Hpost]]]]].
  rewrite Hcalls. cbn [watch calls app]. auto.
Qed.

Lemma ServeHTTP_calls_by_method_witness :
  let r := newCreateTicketRequest {| ID := 0; Status := 0; Items := Some ["burger"] |} in
  let made := calls (store (fst (ServeHTTP {| store := watch seeded |} NewRecorder r))) in
  (List.length made <= 1)%nat
  /\ forallb (fun c => negb (isFetch c)) made = true.
Proof.
  intros r made.
  destruct (ServeHTTP_calls_by_method seeded r) as [Hlen [_ Hpost]].
  split; [exact Hlen | exact (Hpost eq_refl)].
Defined.

(** Whatever the requests, every call the handler makes to the store is a
    fetch of an ID within the range of [int] or a store of a ticket that is
    PENDING, has a non-nil [Items] and items that are valid UTF-8; and there
    are no more calls than requests. *)
Theorem serveAll_calls_are_handler_calls
    {S : Type} `{KitchenStore S} (rs : list http.Request) (s : S) :
  let made := calls (store (fst (serveAll {| store := watch s |} rs))) in
  Forall handlerCall made /\ (List.length made <= List.length rs)%nat.
Proof.
  assert (Hgen : forall sp : Spy S,
             exists new : list Call,
               calls (store (fst (serveAll {| store := sp |} rs))) = (calls sp ++ new)%list
               /\ Forall handlerCall new
               /\ (List.length new <= List.length rs)%nat).
  { induction rs as [|r rs IH]; intros sp.
    - exists []. cbn. rewrite app_nil_r. repeat split; [constructor | lia].
    - cbn [serveAll].
      destruct (ServeHTTP_records sp NewRecorder r)
        as [new1 [Hc1 [Hl1 [Hf1 _]]]].
      destruct (ServeHTTP {| store := sp |} NewRecorder r) as [[sp1] w].
      cbn [fst store] in Hc1.
      destruct (IH sp1) as [new2 [Hc2 [Hf2 Hl2]]].
      destruct (serveAll {| store := sp1 |} rs) as [k2 ws]. cbn [fst] in *.
      exists (new1 ++ new2)%list. rewrite Hc2, Hc1, <- app_assoc.
      split; [reflexivity|]. split; [apply Forall_app; split; assumption|].
      rewrite length_app. cbn [List.length]. lia. }
  intros made. subst made. destruct (Hgen (watch s)) as [new [Hc [Hf Hl]]].
  rewrite Hc. cbn [watch calls app]. split; assumption.
Qed.

(** ** The store of the tests behind the handler *)

(** [StoreTicket] never fails and returns the number of tickets held before;
    the store holds the tickets it held, in their order, and after them the
    given ticket under that number as its ID; and every lookup that
    succeeded is as it was: the ticket found under an ID before the
    operation is the ticket found under it after. *)
Theorem Stub_StoreTicket_keeps_lookups
    (s : StubKitchenStore) (ticket : Ticket) :
  let n := Z.of_nat (List.length (tickets s)) in
  snd (StoreTicket s ticket) = Ok n
  /\ tickets (fst (StoreTicket s ticket))
     = (tickets s
        ++ [ {| ID := n; Status := Status ticket; Items := Items ticket |} ])%list
  /\ forall (id : Z) (found : Ticket),
       GetTicketByID s id = (s, Ok found) ->
       GetTicketByID (fst (StoreTicket s ticket)) id
       = (fst (StoreTicket s ticket), Ok found).
Proof.
  intros n. split; [reflexivity|]. split; [reflexivity|].
  intros id found.
  cbn [StoreTicket GetTicketByID StubKitchenStore_KitchenStore
       StubKitchenStore_StoreTicket fst].
  unfold StubKitchenStore_GetTicketByID. cbn [tickets].
  rewrite findTicket_app.
  destruct (findTicket (tickets s) id) as [x|]; [|discriminate].
  intros Heq. injection Heq as ->. reflexivity.
Qed.

Lemma Stub_StoreTicket_keeps_lookups_witness :
  let pizza := {| ID := 2; Status := STATUS_PENDING; Items := Some ["pizza"; "water"] |} in
  let salad := {| ID := 40; Status := STATUS_COMPLETED; Items := Some ["salad"] |} in
  snd (StoreTicket emptyStub salad) = Ok 0
  /\ snd (StoreTicket seeded salad) = Ok 2
  /\ tickets (fst (StoreTicket seeded salad))
     = (tickets seeded
        ++ [ {| ID := 2; Status := STATUS_COMPLETED; Items := Some ["salad"] |} ])%list
  /\ GetTicketByID seeded 2 = (seeded, Ok pizza)
  /\ GetTicketByID (fst (StoreTicket seeded salad)) 2
     = (fst (StoreTicket seeded salad), Ok pizza).
Proof.
  intros pizza salad.
  destruct (Stub_StoreTicket_keeps_lookups emptyStub salad) as [Hempty _].
  destruct (Stub_StoreTicket_keeps_lookups seeded salad) as [Hn [Htickets Hkeep]].
  split; [exact Hempty|]. split; [exact Hn|]. split; [exact Htickets|].
  split; [reflexivity|]. exact (Hkeep 2 pizza eq_refl).
Defined.

Lemma Stub_POST_then_GET (s : StubKitchenStore) (path : string)
    (body : option json.Value) (t : Ticket) :
  getTicketFromRequestBody body = Ok t ->
  inInt (Z.of_nat (List.length (tickets s))) = true ->
  let n := Z.of_nat (List.length (tickets s)) in
  let created := {| ID := n; Status := STATUS_PENDING; Items := Items t |} in
  snd (serveAll {| store := s |} [newPostRequest path body; newGetTicketRequest n])
  = [ {| Code := http.StatusAccepted; wroteHeader := true; Body := [idDocument n] |};
      {| Code := http.StatusOK; wroteHeader := true;
         Body := [marshalTicket
                    match findTicket (tickets s) n with
                    | Some old => old
                    | None => created
                    end] |} ].
Proof.
  intros Ht Hn n created. cbn [serveAll].
  rewrite ServeHTTP_POST by reflexivity.
  rewrite (createTicket_taken _ _ _ t) by exact Ht.
  cbn [StoreTicket StubKitchenStore_KitchenStore StubKitchenStore_StoreTicket
       store tickets ID].
  match goal with
  | |- context [ServeHTTP {| store := ?s1 |} NewRecorder (newGetTicketRequest n)] =>
    rewrite (Stub_getTicket_found s1 n
               match findTicket (tickets s) n with
               | Some old => old
               | None => created
               end Hn)
  end.
  - reflexivity.
  - cbn [tickets]. rewrite findTicket_app.
    destruct (findTicket (tickets s) n); [reflexivity|].
    cbn [ID]. fold n. rewrite Z.eqb_refl. reflexivity.
Qed.

(** In a store whose IDs are the positions, a ticket that was created is read
    back under the ID of the 202 response: the GET for it answers 200 with a
    document that decodes to the ticket, PENDING and with the items that
    were decoded from the body. *)
Theorem Stub_created_ticket_is_read_back
    (s : StubKitchenStore) (path : string) (body : option json.Value) (t : Ticket) :
  numbered s ->
  getTicketFromRequestBody body = Ok t ->
  inInt (Z.of_nat (List.length (tickets s))) = true ->
  let n := Z.of_nat (List.length (tickets s)) in
  let created := {| ID := n; Status := STATUS_PENDING; Items := Items t |} in
  snd (serveAll {| store := s |} [newPostRequest path body; newGetTicketRequest n])
  = [ {| Code := http.StatusAccepted; wroteHeader := true; Body := [idDocument n] |};
      {| Code := http.StatusOK; wroteHeader := true; Body := [marshalTicket created] |} ]
  /\ getTicketFromResponse [marshalTicket created] = Ok created.
Proof.
  intros Hs Ht Hn n created. split.
  - pose proof (Stub_POST_then_GET s path body t Ht Hn) as H.
    cbv zeta in H. rewrite (numbered_fresh s Hs) in H. exact H.
  - exact (created_ticket_round_trips body t n Ht Hn).
Qed.

Lemma Stub_created_ticket_is_read_back_witness :
  let body := Some (json.Obj [ ("Status", json.Num (json.IntLit 2));
                               ("Items", json.Arr [json.Str "pizza"]) ]) in
  let t := {| ID := 0; Status := 2; Items := Some ["pizza"] |} in
  let created := {| ID := 0; Status := STATUS_PENDING; Items := Some ["pizza"] |} in
  numbered emptyStub
  /\ getTicketFromRequestBody body = Ok t
  /\ snd (serveAll {| store := emptyStub |}
            [newPostRequest "/ticket/" body; newGetTicketRequest 0])
     = [ {| Code := 202; wroteHeader := true; Body := [idDocument 0] |};
         {| Code := 200; wroteHeader := true; Body := [marshalTicket created] |} ]
  /\ getTicketFromResponse [marshalTicket created] = Ok created.
Proof.
  intros body t created. split; [exact numbered_empty|]. split; [reflexivity|].
  exact (Stub_created_ticket_is_read_back emptyStub "/ticket/" body t
           numbered_empty eq_refl eq_refl).
Defined.

(** [StoreTicket] does not look for the ID it assigns: in a store that
    already holds a ticket under the number of its tickets, the new ticket
    gets that ID too, and a GET for the ID of the 202 response returns the
    old ticket, not the one that was created. *)
Theorem Stub_created_ticket_is_shadowed
    (s : StubKitchenStore) (path : string) (body : option json.Value)
    (t old : Ticket) :
  getTicketFromRequestBody body = Ok t ->
  inInt (Z.of_nat (List.length (tickets s))) = true ->
  findTicket (tickets s) (Z.of_nat (List.length (tickets s))) = Some old ->
  let n := Z.of_nat (List.length (tickets s)) in
  snd (serveAll {| store := s |} [newPostRequest path body; newGetTicketRequest n])
  = [ {| Code := http.StatusAccepted; wroteHeader := true; Body := [idDocument n] |};
      {| Code := http.StatusOK; wroteHeader := true; Body := [marshalTicket old] |} ].
Proof.
  intros Ht Hn Hold n.
  pose proof (Stub_POST_then_GET s path body t Ht Hn) as H.
  cbv zeta in H. rewrite Hold in H. exact H.
Qed.

Lemma Stub_created_ticket_is_shadowed_witness :
  let body := Some (json.Obj [("Items", json.Arr [json.Str "salad"])]) in
  let t := {| ID := 0; Status := 0; Items := Some ["salad"] |} in
  let pizza := {| ID := 2; Status := STATUS_PENDING; Items := Some ["pizza"; "water"] |} in
  getTicketFromRequestBody body = Ok t
  /\ findTicket (tickets seeded) 2 = Some pizza
  /\ snd (serveAll {| store := seeded |}
            [newPostRequest "/ticket/" body; newGetTicketRequest 2])
     = [ {| Code := 202; wroteHeader := true; Body := [idDocument 2] |};
         {| Code := 200; wroteHeader := true; Body := [marshalTicket pizza] |} ].
Proof.
  intros body t pizza. split; [reflexivity|]. split; [reflexivity|].
  exact (Stub_created_ticket_is_shadowed seeded "/ticket/" body t pizza
           eq_refl eq_refl eq_refl).
Defined.

(** A GET for an [int] on the store of the tests leaves the store as it is,
    and answers 404 exactly when no stored ticket has the ID and 200 exactly
    when one has. *)
Theorem Stub_GET_404_iff_absent (s : StubKitchenStore) (id : Z) :
  inInt id = true ->
  fst (ServeHTTP {| store := s |} NewRecorder (newGetTicketRequest id))
  = {| store := s |}
  /\ (Code (answer s (newGetTicketRequest id)) = http.StatusNotFound
      <-> forall t, In t (tickets s) -> ID t <> id)
  /\ (Code (answer s (newGetTicketRequest id)) = http.StatusOK
      <-> exists t, In t (tickets s) /\ ID t = id).
Proof.
  intros Hid. unfold answer.
  destruct (findTicket (tickets s) id) as [t|] eqn:E.
  - rewrite (Stub_getTicket_found s id t Hid E). cbn [fst snd Code].
    split; [reflexivity|]. split; split.
    + discriminate.
    + intros Habs. apply findTicket_None in Habs. congruence.
    + intros _. exists t. exact (findTicket_Some _ _ _ E).
    + reflexivity.
  - pose proof (proj1 (findTicket_None _ _) E) as Habs.
    rewrite (Stub_getTicket_absent s id Hid Habs). cbn [fst snd Code].
    split; [reflexivity|]. split; split.
    + intros _. exact Habs.
    + reflexivity.
    + discriminate.
    + intros [t [Hin Heq]]. exfalso. exact (Habs t Hin Heq).
Qed.

Lemma Stub_GET_404_iff_absent_witness :
  inInt 3 = true
  /\ fst (ServeHTTP {| store := seeded |} NewRecorder (newGetTicketRequest 3))
     = {| store := seeded |}
  /\ Code (answer seeded (newGetTicketRequest 3)) = http.StatusNotFound.
Proof.
  split; [reflexivity|].
  destruct (Stub_GET_404_iff_absent seeded 3 eq_refl) as [Hstore [H404 _]].
  split; [exact Hstore|].
  apply H404. intros t [<- | [<- | []]]; discriminate.
Defined.

(** One request on the store of the tests: either the store is as it was
    and the answer is not 202, or one ticket was added and the answer is 202
    with the number of tickets held before. *)
Lemma Stub_ServeHTTP_step (s : StubKitchenStore) (r : http.Request) :
  (tickets (store (fst (ServeHTTP {| store := s |} NewRecorder r))) = tickets s
   /\ accepted [snd (ServeHTTP {| store := s |} NewRecorder r)] = [])
  \/ (exists t : Ticket,
        tickets (store (fst (ServeHTTP {| store := s |} NewRecorder r)))
        = (tickets s ++ [t])%list
        /\ snd (ServeHTTP {| store := s |} NewRecorder r)
           = {| Code := http.StatusAccepted; wroteHeader := true;
                Body := [idDocument (Z.of_nat (List.length (tickets s)))] |}).
Proof.
  unfold ServeHTTP.
  destruct (String.eqb (http.Method r) http.MethodGet).
  - left. unfold getTicket.
    destruct (strconv.Atoi _) as [id|e]; [|split; reflexivity].
    cbn [GetTicketByID StubKitchenStore_KitchenStore store].
    unfold StubKitchenStore_GetTicketByID.
    destruct (findTicket (tickets s) id); split; reflexivity.
  - destruct (String.eqb (http.Method r) http.MethodPost); [|left; split; reflexivity].
    unfold createTicket.
    destruct (getTicketFromRequestBody (http.Body r)) as [t|e];
      [|left; split; reflexivity].
    right. eexists. split; reflexivity.
Qed.

(** Whatever requests a server on the store of the tests is sent, the store
    only grows, by one ticket for each 202 response, and the 202 responses
    carry, in order, the IDs that count up from the number of tickets the
    store held at the start. *)
Theorem Stub_serveAll_IDs_count_up (rs : list http.Request) (s : StubKitchenStore) :
  let k := fst (serveAll {| store := s |} rs) in
  let ws := snd (serveAll {| store := s |} rs) in
  exists added : list Ticket,
    tickets (store k) = (tickets s ++ added)%list
    /\ List.length added = List.length (accepted ws)
    /\ map Body (accepted ws)
       = map (fun i => [idDocument (Z.of_nat i)])
             (seq (List.length (tickets s)) (List.length added)).
Proof.
  revert s. induction rs as [|r rs IH]; intros s k ws; subst k ws.
  - exists []. cbn. rewrite app_nil_r. repeat split.
  - cbn [serveAll].
    pose proof (Stub_ServeHTTP_step s r) as Hstep.
    destruct (ServeHTTP {| store := s |} NewRecorder r) as [[s1] w].
    cbn [fst snd store] in Hstep.
    destruct (IH s1) as [added [Htickets [Hlen Hbodies]]].
    destruct (serveAll {| store := s1 |} rs) as [k2 ws]. cbn [fst snd] in *.
    destruct Hstep as [[Hsame Hnot] | [t [Hgrown Hw]]].
    + exists added. rewrite Htickets, Hsame.
      unfold accepted in *. cbn [filter] in *.
      destruct (Code w =? http.StatusAccepted); [discriminate Hnot|].
      rewrite Hsame in Hbodies. repeat split; assumption.
    + exists (t :: added). rewrite Htickets, Hgrown, <- app_assoc.
      split; [reflexivity|]. subst w.
      unfold accepted in *. cbn [filter Code]. rewrite Z.eqb_refl.
      cbn [List.length map Body seq]. rewrite Hlen. split; [reflexivity|].
      f_equal. rewrite Hbodies, Hgrown, length_app, Hlen. cbn [List.length].
      rewrite Nat.add_1_r. reflexivity.
Qed.

(** ** The store of the binary behind the handler *)

(** With the store of the binary a ticket that was created cannot be read
    back: the POST is answered 202 with the ID 123, and the GET for 123 is
    answered 200 with the zero ticket, whose [Items] is nil, while the
    ticket that was sent had passed validation. *)
Theorem InMemoryKitchenStore_forgets_created_tickets
    (path : string) (body : option json.Value) (t : Ticket) :
  getTicketFromRequestBody body = Ok t ->
  serveAll {| store := mkInMemoryKitchenStore |}
    [newPostRequest path body; newGetTicketRequest 123]
  = ({| store := mkInMemoryKitchenStore |},
     [ {| Code := http.StatusAccepted; wroteHeader := true; Body := [idDocument 123] |};
       {| Code := http.StatusOK; wroteHeader := true;
          Body := [marshalTicket zeroTicket] |} ])
  /\ Items zeroTicket <> Items t.
Proof.
  intros Ht. split.
  - cbn [serveAll]. rewrite ServeHTTP_POST by reflexivity.
    rewrite (createTicket_taken _ _ _ t) by exact Ht. reflexivity.
  - pose proof (getTicketFromRequestBody_valid body t Ht) as Hv.
    unfold isTicketValid in Hv. destruct (Items t); [discriminate | discriminate Hv].
Qed.

Lemma InMemoryKitchenStore_forgets_created_tickets_witness :
  let body := Some (json.Obj [("Items", json.Arr [json.Str "burger"])]) in
  let t := {| ID := 0; Status := 0; Items := Some ["burger"] |} in
  getTicketFromRequestBody body = Ok t
  /\ serveAll {| store := mkInMemoryKitchenStore |}
       [newPostRequest "/ticket/" body; newGetTicketRequest 123]
     = ({| store := mkInMemoryKitchenStore |},
        [ {| Code := 202; wroteHeader := true; Body := [idDocument 123] |};
          {| Code := 200; wroteHeader := true; Body := [marshalTicket zeroTicket] |} ])
  /\ Items zeroTicket <> Items t.
Proof.
  intros body t. split; [reflexivity|].
  exact (InMemoryKitchenStore_forgets_created_tickets "/ticket/" body t eq_refl).
Defined.

(** ** The assertions of the tests *)

Lemma equalStrings_eq (a : list string) :
  forall b, equalStrings a b = true <-> a = b.
Proof.
  induction a as [|x a IH]; intros [|y b]; cbn [equalStrings];
    try (split; [discriminate | discriminate]); [split; reflexivity|].
  rewrite andb_true_iff, String.eqb_eq, IH. split.
  - intros [-> ->]. reflexivity.
  - intros Heq. injection Heq as -> ->. split; reflexivity.
Qed.

(** [reflect.DeepEqual] on tickets is equality, a nil [Items] and an empty
    one told apart. *)
Lemma DeepEqual_eq (a b : Ticket) : DeepEqual a b = true <-> a = b.
Proof.
  destruct a as [ia sa la], b as [ib sb lb]. unfold DeepEqual. cbn [ID Status Items].
  rewrite !andb_true_iff, !Z.eqb_eq. split.
  - intros [[-> ->] Hl]. f_equal.
    destruct la as [la|], lb as [lb|]; try discriminate Hl; [|reflexivity].
    apply equalStrings_eq in Hl. subst. reflexivity.
  - intros Heq. injection Heq as -> -> ->. repeat split.
    destruct lb as [lb|]; [apply equalStrings_eq|]; reflexivity.
Qed.

(** [assertTicketPersisted] passes exactly when the lookup of the wanted ID
    finds the wanted ticket itself: the first ticket with that ID, equal in
    ID, status and items, a nil [Items] and an empty one told apart. *)
Theorem assertTicketPersisted_passes_iff (s : StubKitchenStore) (want : Ticket) :
  assertTicketPersisted s want = []
  <-> findTicket (tickets s) (ID want) = Some want.
Proof.
  unfold assertTicketPersisted, StubKitchenStore_GetTicketByID.
  destruct (findTicket (tickets s) (ID want)) as [got|].
  - cbn [app]. destruct (DeepEqual got want) eqn:E; cbn [negb].
    + apply DeepEqual_eq in E. subst. split; reflexivity.
    + split; [discriminate|]. intros Heq. injection Heq as ->.
      assert (Hrefl : DeepEqual want want = true) by (apply DeepEqual_eq; reflexivity).
      congruence.
  - split; discriminate.
Qed.

Lemma unmarshal_idDocument (strict : bool) (n : Z) (r : CreateTicketResponse) :
  inInt n = true ->
  unmarshalCreateTicketResponse strict (idDocument n) r = ({| ResponseID := n |}, None).
Proof.
  intros Hn. unfold idDocument, marshalCreateTicketResponse,
    unmarshalCreateTicketResponse. cbn [ResponseID fold_left].
  unfold decodeResponseMember.
  change (String.eqb (json.foldName (utf8.ToValid "ID")) (json.foldName "ID")) with true.
  cbn [json.storeInt]. rewrite Hn. reflexivity.
Qed.

(** After a POST that the store of the tests accepted, [assertTicketResponse]
    on the body of the response passes for one wanted ID only: the number of
    tickets the store held before. *)
Theorem assertTicketResponse_passes_iff
    (s : StubKitchenStore) (path : string) (body : option json.Value)
    (want : CreateTicketResponse) :
  acceptableBody body = true ->
  inInt (Z.of_nat (List.length (tickets s))) = true ->
  assertTicketResponse (Body (answer s (newPostRequest path body))) want = []
  <-> ResponseID want = Z.of_nat (List.length (tickets s)).
Proof.
  intros Hbody Hn. unfold answer.
  destruct (getTicketFromRequestBody_accepts body Hbody) as [t Ht].
  rewrite ServeHTTP_POST by reflexivity.
  rewrite (createTicket_taken _ _ _ t) by exact Ht.
  cbn [StoreTicket StubKitchenStore_KitchenStore StubKitchenStore_StoreTicket
       store tickets ID snd Body Write WriteHeader NewRecorder wroteHeader app].
  unfold assertTicketResponse, DecodeResponse, NewDecoder.
  cbn [hd_error input disallowUnknownFields].
  fold (idDocument (Z.of_nat (List.length (tickets s)))).
  rewrite (unmarshal_idDocument false _ _ Hn). cbn [app ResponseID].
  destruct (Z.of_nat (List.length (tickets s)) =? ResponseID want) eqn:E; cbn [negb].
  - apply Z.eqb_eq in E. split; [intros _; symmetry; exact E | reflexivity].
  - apply Z.eqb_neq in E. split; [discriminate | intros Heq; congruence].
Qed.

Lemma assertTicketResponse_passes_iff_witness :
  let body := Some (json.Obj [("Items", json.Arr [json.Str "burger"; json.Str "fries"])]) in
  acceptableBody body = true
  /\ inInt (Z.of_nat (List.length (tickets seeded))) = true
  /\ assertTicketResponse (Body (answer seeded (newPostRequest "/ticket/" body)))
       {| ResponseID := 2 |} = [].
Proof.
  intros body. split; [reflexivity|]. split; [reflexivity|].
  exact (proj2 (assertTicketResponse_passes_iff seeded "/ticket/" body
                  {| ResponseID := 2 |} eq_refl eq_refl) eq_refl).
Defined.

Lemma served_store_round_trip_witness :
  let burger := {| ID := 5; Status := STATUS_COMPLETED; Items := Some ["burger"] |} in
  let stored := {| ID := 0; Status := STATUS_PENDING; Items := Some ["burger"] |} in
  let s := store (fst (serveAll {| store := emptyStub |} [newCreateTicketRequest burger])) in
  findTicket (tickets s) 0 = Some stored
  /\ inInt 0 = true
  /\ NoDup (map ID (tickets s))
  /\ ServeHTTP {| store := s |} NewRecorder (newGetTicketRequest 0)
     = ({| store := s |},
        {| Code := http.StatusOK; wroteHeader := true; Body := [marshalTicket stored] |})
  /\ getTicketFromResponse [marshalTicket stored] = Ok stored.
Proof.
  intros burger stored s. split; [reflexivity|]. split; [reflexivity|].
  exact (served_store_round_trip [newCreateTicketRequest burger] 0 stored
           eq_refl eq_refl).
Defined.

Lemma assertTicketPersisted_passes_iff_witness :
  let pizza := {| ID := 2; Status := STATUS_PENDING; Items := Some ["pizza"; "water"] |} in
  findTicket (tickets seeded) (ID pizza) = Some pizza
  /\ assertTicketPersisted seeded pizza = [].
Proof.
  intros pizza. split; [reflexivity|].
  exact (proj2 (assertTicketPersisted_passes_iff seeded pizza) eq_refl).
Defined.
